(** * sqlgen: the query pipeline, the training orchestrator and their providers

    A shallow embedding of
      - src/providers/postgres.ts   (PostgresService),
      - src/providers/qdrant.ts     (QdrantService),
      - src/services/text-to-sql.ts (TextToSqlService),
      - src/services/query-pipeline.ts (QueryPipelineService),
      - src/train.ts                (TrainingService),
      - test/utils/test-helpers.ts  (MockQdrantClient),
    and of the part of the `effect` library they are written with.

    Every function of the repository is an [Effect]: a description of a
    computation that succeeds with a value, fails with an error, or performs
    a call to the outside world (pg pool, Qdrant client, OpenAI, the clock,
    the logger) and continues with its reply.  [Effect.run] executes such a
    description against an environment and returns the exit value, the list
    of calls made with their replies, and the final state of the
    environment. *)

From Stdlib Require Import ZArith List String Ascii Bool Lia DecimalString SpecFloat.
From stdpp Require Import base option gmap strings list.
Import ListNotations.

Set Implicit Arguments.
Set Warnings "-register-all".
Local Open Scope nat_scope.

(** ** JavaScript values *)

Module Js.

(** `class X extends Error { constructor(message, public cause?: Error) }`:
    every error class of the repository has this shape; [name] is the
    value the constructor stores in `this.name`. *)
Inductive Error : Type :=
| mkError (name message : string) (cause : option Error).

Definition name (e : Error) : string := let 'mkError n _ _ := e in n.
Definition message (e : Error) : string := let 'mkError _ m _ := e in m.
Definition cause (e : Error) : option Error := let 'mkError _ _ c := e in c.

(** `new Error(message)` *)
Definition new_Error (msg : string) : Error := mkError "Error" msg None.

(** Error.prototype.toString, which a template literal `${error}` calls. *)
Definition toString (e : Error) : string :=
  if String.eqb (name e) EmptyString then message e
  else if String.eqb (message e) EmptyString then name e
  else name e +:+ ": " +:+ message e.

(** A JavaScript number is an IEEE 754 binary64 value. *)
Definition number : Type := spec_float.

(** `a < b` on numbers: false as soon as one side is NaN. *)
Definition lt (a b : number) : bool := SFltb a b.

(** `${n}` for an array length or an index. *)
Definition nat_toString (n : nat) : string :=
  NilZero.string_of_uint (Nat.to_uint n).

(** `${n}` for an integer-valued number (milliseconds). *)
Definition int_toString (z : Z) : string :=
  NilZero.string_of_int (Z.to_int z).

(** Values of type `any`: what JSON.parse returns and what a row holds. *)
Inductive Value : Type :=
| Undefined
| Null
| Bool (b : bool)
| Number (n : number)
| Str (s : string)
| Array (items : list Value)
| Object (fields : list (string * Value)).

(** Own property of an object literal; when a key occurs twice the later
    binding wins, as in JSON.parse. *)
Fixpoint lookup_field (key : string) (fields : list (string * Value)) : option Value :=
  match fields with
  | [] => None
  | (k, v) :: rest =>
      match lookup_field key rest with
      | Some v' => Some v'
      | None => if String.eqb k key then Some v else None
      end
  end.

(** `v.key` for a key that no prototype defines (`sql`, `confidence`,
    `explanation`): reading a property of `null` or `undefined` throws a
    TypeError, primitives and arrays give `undefined`. *)
Definition get (v : Value) (key : string) : Error + Value :=
  match v with
  | Undefined =>
      inl (mkError "TypeError"
             ("Cannot read properties of undefined (reading '" +:+ key +:+ "')") None)
  | Null =>
      inl (mkError "TypeError"
             ("Cannot read properties of null (reading '" +:+ key +:+ "')") None)
  | Object fields =>
      inr (match lookup_field key fields with Some x => x | None => Undefined end)
  | _ => inr Undefined
  end.

End Js.

(** ** JavaScript conversions

    A row of a query result is a value of type `any`; src/providers/postgres.ts
    puts its properties into template literals, compares them with `===`
    and tests them in conditions.  src/providers/qdrant.ts tests the filter
    of a search in a condition. *)

Module JsOps.
Section Conversions.

(** Number::toString of the language *)
Variable number_toString : Js.number -> string.

(** `${v}`: the ToString conversion.  An array is joined with commas,
    with nothing for its `null` and `undefined` elements; an object literal
    is `[object Object]`. *)
Fixpoint toString (v : Js.Value) : string :=
  match v with
  | Js.Undefined => "undefined"
  | Js.Null => "null"
  | Js.Bool b => if b then "true" else "false"
  | Js.Number n => number_toString n
  | Js.Str s => s
  | Js.Array items =>
      String.concat ","
        (List.map (fun item => match item with
                               | Js.Undefined | Js.Null => EmptyString
                               | _ => toString item
                               end) items)
  | Js.Object _ => "[object Object]"
  end.

(** `v ? a : b`: the ToBoolean conversion. *)
Definition truthy (v : Js.Value) : bool :=
  match v with
  | Js.Undefined | Js.Null => false
  | Js.Bool b => b
  | Js.Number (S754_zero _) | Js.Number S754_nan => false
  | Js.Number _ => true
  | Js.Str s => negb (String.eqb s EmptyString)
  | Js.Array _ | Js.Object _ => true
  end.

(** `v === s` for a string [s] *)
Definition strict_eq_string (v : Js.Value) (s : string) : bool :=
  match v with
  | Js.Str s' => String.eqb s' s
  | _ => false
  end.

(** `array.map(f)` for a callback that may throw: the first exception
    leaves the loop. *)
Fixpoint array_map {A B : Type} (f : A -> Js.Error + B) (items : list A)
    : Js.Error + list B :=
  match items with
  | [] => inr []
  | item :: rest =>
      match f item with
      | inl x => inl x
      | inr b =>
          match array_map f rest with
          | inl x => inl x
          | inr bs => inr (b :: bs)
          end
      end
  end.

End Conversions.
End JsOps.

(** ** Data model of the providers and services *)

Module Postgres.

Definition PostgresError (msg : string) (cause : option Js.Error) : Js.Error :=
  Js.mkError "PostgresError" msg cause.

(** `QueryResult<any>` of pg: only `rows` is read. *)
Record QueryResult : Type := { rows : list Js.Value }.

End Postgres.

Module Qdrant.

Definition QdrantError (msg : string) (cause : option Js.Error) : Js.Error :=
  Js.mkError "QdrantError" msg cause.

Record QdrantConfig : Type :=
  { url : string; apiKey : option string; collectionName : string }.

Record Payload : Type :=
  { content : string; metadata : option (list (string * Js.Value)) }.

Record VectorRecord : Type :=
  { id : string; vector : list Js.number; payload : Payload }.

(** What `client.getCollections()` lists for one collection.  The service
    reads [name] only; [size] is the `config.vectors.size` that
    MockQdrantClient keeps next to it. *)
Record CollectionDescription : Type := { name : string; size : nat }.

(** Parameters of `client.search`. *)
Record SearchParams : Type :=
  { sp_vector : list Js.number;
    sp_limit : nat;
    sp_with_payload : bool;
    sp_filter : option Js.Value }.

End Qdrant.

Module TextToSql.

Definition TextToSqlError (msg : string) (cause : option Js.Error) : Js.Error :=
  Js.mkError "TextToSqlError" msg cause.

Record TextToSqlConfig : Type :=
  { model : string;
    embeddingModel : string;
    maxTokens : option nat;
    temperature : option Js.number }.

(** `interface SqlResult`, as declared. *)
Record SqlResult : Type :=
  { sql : string; confidence : Js.number; explanation : string }.

(** The object literal that generateSql returns: its three properties are
    read from `parsed`, which has type `any`, so at run time they hold
    whatever JSON.parse produced. *)
Record ParsedSqlResult : Type :=
  { parsed_sql : Js.Value; parsed_confidence : Js.Value; parsed_explanation : Js.Value }.

End TextToSql.

Module QueryPipeline.

Definition QueryPipelineError (msg : string) (cause : option Js.Error) : Js.Error :=
  Js.mkError "QueryPipelineError" msg cause.

Record QueryResult : Type :=
  { question : string;
    sql : string;
    confidence : Js.number;
    explanation : string;
    results : list Js.Value;
    executionTime : Z }.

Record QueryPipelineConfig : Type :=
  { minConfidence : Js.number; dryRun : bool; maxRetries : nat }.

End QueryPipeline.

Module Train.

Definition TrainingError (msg : string) (cause : option Js.Error) : Js.Error :=
  Js.mkError "TrainingError" msg cause.

End Train.

(** ** Calls to the outside world

    Each constructor is one call that leaves the repository's code; its index
    is the type of the reply.  A call that returns a promise replies with
    [inl reason] when the promise rejects. *)

Inductive Call : Type -> Type :=
(* the Effect runtime and the JavaScript platform *)
| Effect_log (message : string) : Call unit
| Date_now : Call Z
| Date_toISOString : Call string
| crypto_randomUUID : Call string
(* @qdrant/js-client-rest *)
| client_getCollections : Call (Js.Error + list Qdrant.CollectionDescription)
| client_createCollection (name : string) (size : nat) (distance : string)
    : Call (Js.Error + unit)
| client_upsert (name : string) (wait : bool) (points : list Qdrant.VectorRecord)
    : Call (Js.Error + unit)
| client_search (name : string) (params : Qdrant.SearchParams)
    : Call (Js.Error + list Qdrant.VectorRecord)
| client_deleteCollection (name : string) : Call (Js.Error + unit)
(* ai / @ai-sdk/openai *)
| ai_embed (model value : string) : Call (Js.Error + list Js.number)
| ai_generateText (model prompt : string) (maxTokens : nat) (temperature : Js.number)
    : Call (Js.Error + string)
(* call-recording doubles of the three injected services: one call per
   method, replying with the method's success value or its error *)
| postgres_query (sql : string) (params : option (list Js.Value))
    : Call (Js.Error + Postgres.QueryResult)
| postgres_getSchema : Call (Js.Error + list string)
| postgres_getTableSchema (tableName : string) : Call (Js.Error + string)
| postgres_close : Call (Js.Error + unit)
| qdrant_createCollection (vectorSize : nat) : Call (Js.Error + unit)
| qdrant_upsertVectors (vectors : list Qdrant.VectorRecord) : Call (Js.Error + unit)
| qdrant_search (vector : list Js.number) (limit : nat) (filter : option Js.Value)
    : Call (Js.Error + list Qdrant.VectorRecord)
| qdrant_deleteCollection : Call (Js.Error + unit)
| textToSql_generateSql (question : string) : Call (Js.Error + TextToSql.SqlResult)
| textToSql_trainFromSchema (ddl : string) : Call (Js.Error + unit)
| textToSql_executeQuery (sql : string) : Call (Js.Error + list Js.Value).

(** ** The part of `effect` the repository uses *)

Module Effect.

(** `Effect.Effect<A, E>`; every error type of the repository is a
    subclass of Error, so the failure channel carries a [Js.Error]. *)
Inductive t (A : Type) : Type :=
| succeed (a : A)
| fail (e : Js.Error)
| die (defect : Js.Error)
| perform (X : Type) (c : Call X) (k : X -> t A).

Arguments succeed {A} a.
Arguments fail {A} e.
Arguments die {A} defect.
Arguments perform {A X} c k.

(** `Effect.flatMap`: the continuation runs on success only; a failure or a
    defect of [m] is the result. *)
Fixpoint bind {A B : Type} (m : t A) (f : A -> t B) : t B :=
  match m with
  | succeed a => f a
  | fail e => fail e
  | die d => die d
  | perform c k => perform c (fun x => bind (k x) f)
  end.

(** `Effect.map` *)
Definition map {A B : Type} (f : A -> B) (m : t A) : t B :=
  bind m (fun a => succeed (f a)).

(** `Effect.mapError` *)
Fixpoint mapError {A : Type} (f : Js.Error -> Js.Error) (m : t A) : t A :=
  match m with
  | succeed a => succeed a
  | fail e => fail (f e)
  | die d => die d
  | perform c k => perform c (fun x => mapError f (k x))
  end.

(** The promise of an `async` function: [fail] is a rejection.  [await]
    is one awaited call of a client library. *)
Definition await {X : Type} (c : Call (Js.Error + X)) : t X :=
  perform c (fun r => match r with
                      | inl reason => fail reason
                      | inr x => succeed x
                      end).

(** `Effect.tryPromise({ try, catch })`: the promise made by `try` runs;
    if it rejects, `catch` turns the reason into the failure. *)
Definition tryPromise {X : Type} (try : t X) (catch : Js.Error -> Js.Error) : t X :=
  mapError catch try.

(** `Effect.log(message)` *)
Definition log (message : string) : t unit :=
  perform (Effect_log message) succeed.


(** *** Generators

    The body of `Effect.gen(function*() { ... })` is JavaScript code that
    yields effects.  Its own synchronous statements may throw, and a
    `try { } catch { }` inside the body catches exactly those throws.  A
    yielded effect that fails does not resume the generator: the runtime
    calls the generator's `next` with the value of an effect that
    succeeded and never calls its `throw`; on a failure it unwinds past
    the generator frame, so neither the rest of the body nor any `catch`
    block of the body runs, and the whole `Effect.gen` fails with that
    error.

    A body is therefore an effect whose success value is either an
    exception in flight in the body ([inl]) or a returned value ([inr]). *)
Definition Body (A : Type) : Type := t (Js.Error + A).

(** `return a` *)
Definition ret {A : Type} (a : A) : Body A := succeed (inr a).

(** a synchronous expression that evaluates to a value or throws, such as
    `JSON.parse(text)` or `parsed.sql` *)
Definition eval {A : Type} (r : Js.Error + A) : Body A := succeed r.

(** a synchronous call of the platform made by the body, such as
    `Date.now()` or `crypto.randomUUID()` *)
Definition call {X : Type} (c : Call X) : Body X :=
  perform c (fun x => succeed (inr x)).

(** `yield* e` *)
Definition yield {A : Type} (e : t A) : Body A := map inr e.

(** statement sequencing inside a body *)
Definition seq {A B : Type} (m : Body A) (k : A -> Body B) : Body B :=
  bind m (fun r => match r with
                   | inl x => succeed (inl x)
                   | inr a => k a
                   end).

(** `try { body } catch (x) { handler }` *)
Definition try_catch {A : Type} (body : Body A) (handler : Js.Error -> Body A) : Body A :=
  bind body (fun r => match r with
                      | inl x => handler x
                      | inr a => succeed (inr a)
                      end).

(** `Effect.gen`: an exception that leaves the body is a defect. *)
Definition gen {A : Type} (body : Body A) : t A :=
  bind body (fun r => match r with
                      | inl x => die x
                      | inr a => succeed a
                      end).

(** `Effect.forEach(items, (item, index) => ...)` with the default options:
    one item after the other, stopping at the first failure. *)
Fixpoint forEach_from {A B : Type} (index : nat) (items : list A)
    (f : A -> nat -> t B) : t (list B) :=
  match items with
  | [] => succeed []
  | item :: rest =>
      bind (f item index) (fun b =>
      bind (forEach_from (S index) rest f) (fun bs =>
      succeed (b :: bs)))
  end.

Definition forEach {A B : Type} (items : list A) (f : A -> nat -> t B) : t (list B) :=
  forEach_from 0 items f.

(** *** Running an effect *)

Inductive Exit (A : Type) : Type :=
| Success (a : A)
| Failure (e : Js.Error)
| Defect (d : Js.Error).

Arguments Success {A} a.
Arguments Failure {A} e.
Arguments Defect {A} d.

(** One call together with the reply it received. *)
Inductive Event : Type :=
| Ev (X : Type) (c : Call X) (reply : X).

Arguments Ev {X} c reply.

(** The outside world: a state and the reply it gives to each call. *)
Record Env (W : Type) : Type :=
  { respond : forall X : Type, Call X -> W -> X * W }.

Fixpoint run {W A : Type} (env : Env W) (m : t A) (w : W)
    : Exit A * list Event * W :=
  match m with
  | succeed a => (Success a, [], w)
  | fail e => (Failure e, [], w)
  | die d => (Defect d, [], w)
  | perform c k =>
      let '(x, w1) := respond env c w in
      let '(r, tr, w2) := run env (k x) w1 in
      (r, Ev c x :: tr, w2)
  end.

Definition exit_of {W A : Type} (r : Exit A * list Event * W) : Exit A := fst (fst r).
Definition trace_of {W A : Type} (r : Exit A * list Event * W) : list Event := snd (fst r).
Definition world_of {W A : Type} (r : Exit A * list Event * W) : W := snd r.

End Effect.

Declare Scope body_scope.
Delimit Scope body_scope with body.
Notation "x <- m ;; k" := (Effect.seq m (fun x => k))
  (at level 100, m at next level, right associativity) : body_scope.
Notation "m ;; k" := (Effect.seq m (fun _ => k))
  (at level 100, right associativity) : body_scope.
Notation "'yield*' e" := (Effect.yield e) (at level 10, e at level 9) : body_scope.

Local Open Scope body_scope.

(** ** Service interfaces *)

(** A method of a service is a JavaScript function: a call of it returns
    the effect, or throws.  Where the call is made in a generator body
    outside any `try` block, a throw leaves the body and the generator dies
    with it, before any call to the outside world: that is the method
    returning [Effect.die].  So a method is given by the effect it returns,
    with one exception: `postgres.query` is called inside a `try` block
    (validateSql), where a throw of the call is caught and is not a defect.
    A call of [query] is therefore the exception thrown ([inl]) or the
    effect returned ([inr]); a call that returns something that is not an
    effect makes `.pipe` throw, and is an [inl] too. *)

(** `interface PostgresService` (the Schema Store) *)
Record PostgresService : Type :=
  { query : string -> option (list Js.Value) -> Js.Error + Effect.t Postgres.QueryResult;
    getSchema : Effect.t (list string);
    getTableSchema : string -> Effect.t string;
    close : Effect.t unit }.

(** `interface QdrantService` (the Vector Index) *)
Record QdrantService : Type :=
  { createCollection : nat -> Effect.t unit;
    upsertVectors : list Qdrant.VectorRecord -> Effect.t unit;
    search : list Js.number -> option nat -> option Js.Value
             -> Effect.t (list Qdrant.VectorRecord);
    deleteCollection : Effect.t unit }.

(** `interface TextToSqlService` (the Generation Service) *)
Record TextToSqlService : Type :=
  { generateSql : string -> Effect.t TextToSql.SqlResult;
    trainFromSchema : string -> Effect.t unit;
    executeQuery : string -> Effect.t (list Js.Value) }.

(** ** src/providers/qdrant.ts *)

Module QdrantLive.
Section make.

Variable config : Qdrant.QdrantConfig.

Definition createCollection (vectorSize : nat) : Effect.t unit :=
  Effect.tryPromise
    (Effect.bind (Effect.await client_getCollections) (fun collections =>
     let exists_ :=
       existsb (fun col => String.eqb (Qdrant.name col) (Qdrant.collectionName config))
               collections in
     if negb exists_
     then Effect.await
            (client_createCollection (Qdrant.collectionName config) vectorSize "Cosine")
     else Effect.succeed tt))
    (fun error =>
       Qdrant.QdrantError ("Failed to create collection: " +:+ Js.toString error)
                          (Some error)).

Definition upsertVectors (vectors : list Qdrant.VectorRecord) : Effect.t unit :=
  Effect.map (fun _ => tt)
    (Effect.tryPromise
       (Effect.await
          (client_upsert (Qdrant.collectionName config) true
             (List.map (fun v => {| Qdrant.id := Qdrant.id v;
                                    Qdrant.vector := Qdrant.vector v;
                                    Qdrant.payload := Qdrant.payload v |})
                       vectors)))
       (fun error =>
          Qdrant.QdrantError ("Failed to upsert vectors: " +:+ Js.toString error)
                             (Some error))).

Definition search (vector : list Js.number) (limit : option nat)
    (filter : option Js.Value) : Effect.t (list Qdrant.VectorRecord) :=
  let limit := default 10 limit in
  let searchParams :=
    {| Qdrant.sp_vector := vector;
       Qdrant.sp_limit := limit;
       Qdrant.sp_with_payload := true;
       Qdrant.sp_filter := None |} in
  (* `if (filter) { searchParams.filter = filter }` *)
  let searchParams :=
    match filter with
    | Some f =>
        if JsOps.truthy f
        then {| Qdrant.sp_vector := Qdrant.sp_vector searchParams;
                Qdrant.sp_limit := Qdrant.sp_limit searchParams;
                Qdrant.sp_with_payload := Qdrant.sp_with_payload searchParams;
                Qdrant.sp_filter := Some f |}
        else searchParams
    | None => searchParams
    end in
  Effect.map
    (fun result =>
       List.map (fun point => {| Qdrant.id := Qdrant.id point;
                                 Qdrant.vector := Qdrant.vector point;
                                 Qdrant.payload := Qdrant.payload point |})
                result)
    (Effect.tryPromise
       (Effect.await (client_search (Qdrant.collectionName config) searchParams))
       (fun error =>
          Qdrant.QdrantError ("Search failed: " +:+ Js.toString error) (Some error))).

Definition deleteCollection : Effect.t unit :=
  Effect.map (fun _ => tt)
    (Effect.tryPromise
       (Effect.await (client_deleteCollection (Qdrant.collectionName config)))
       (fun error =>
          Qdrant.QdrantError ("Failed to delete collection: " +:+ Js.toString error)
                             (Some error))).

Definition make : QdrantService :=
  Build_QdrantService createCollection upsertVectors search deleteCollection.

End make.
End QdrantLive.

(** ** src/services/text-to-sql.ts *)

Module TextToSqlLive.

Definition nl : string := String (ascii_of_nat 10) EmptyString.
Definition dq : string := String (ascii_of_nat 34) EmptyString.

(** the default `temperature`, 0.1 = 0x1.999999999999ap-4 *)
Definition temperature_default : Js.number :=
  S754_finite false 7205759403792794 (-56).

(** the prompt template of generateSql *)
Definition prompt_of (schemaContext question : string) : string :=
  let ind := "          " in
  "You are a SQL expert. Given the following database schema and a natural language question, generate a SQL query."
  +:+ nl +:+ nl
  +:+ ind +:+ "Database Schema:" +:+ nl
  +:+ ind +:+ schemaContext +:+ nl +:+ nl
  +:+ ind +:+ "Question: " +:+ question +:+ nl +:+ nl
  +:+ ind +:+ "Generate a SQL query that answers this question. Provide your response in the following JSON format:" +:+ nl
  +:+ ind +:+ "{" +:+ nl
  +:+ ind +:+ "  " +:+ dq +:+ "sql" +:+ dq +:+ ": " +:+ dq +:+ "your SQL query here" +:+ dq +:+ "," +:+ nl
  +:+ ind +:+ "  " +:+ dq +:+ "confidence" +:+ dq +:+ ": 0.95," +:+ nl
  +:+ ind +:+ "  " +:+ dq +:+ "explanation" +:+ dq +:+ ": " +:+ dq +:+ "Brief explanation of the query" +:+ dq +:+ nl
  +:+ ind +:+ "}" +:+ nl +:+ nl
  +:+ ind +:+ "Make sure the SQL is syntactically correct and follows PostgreSQL conventions.".

Section make.

(** `JSON.parse`, a built-in of the language: the parsed value, or the
    SyntaxError it throws. *)
Variable JSON_parse : string -> Js.Error + Js.Value.

Variable config : TextToSql.TextToSqlConfig.
Variable postgres : PostgresService.
Variable qdrant : QdrantService.

Definition generateSql (question : string) : Effect.t TextToSql.ParsedSqlResult :=
  Effect.gen (
    questionEmbedding <- yield*
      (Effect.tryPromise
         (Effect.await (ai_embed (TextToSql.embeddingModel config) question))
         (fun error =>
            TextToSql.TextToSqlError
              ("Failed to generate embedding: " +:+ Js.toString error) (Some error))) ;;
    similarSchemas <- yield*
      (Effect.mapError
         (fun error =>
            TextToSql.TextToSqlError
              ("Vector search failed: " +:+ Js.toString error) (Some error))
         (search qdrant questionEmbedding (Some 5) None)) ;;
    let schemaContext :=
      String.concat (nl +:+ nl)
        (List.map (fun record => Qdrant.content (Qdrant.payload record)) similarSchemas) in
    let prompt := prompt_of schemaContext question in
    result <- yield*
      (Effect.tryPromise
         (Effect.await
            (ai_generateText (TextToSql.model config) prompt
               (default 1000 (TextToSql.maxTokens config))
               (default temperature_default (TextToSql.temperature config))))
         (fun error =>
            TextToSql.TextToSqlError
              ("SQL generation failed: " +:+ Js.toString error) (Some error))) ;;
    Effect.try_catch
      (parsed <- Effect.eval (JSON_parse result) ;;
       sql <- Effect.eval (Js.get parsed "sql") ;;
       confidence <- Effect.eval (Js.get parsed "confidence") ;;
       explanation <- Effect.eval (Js.get parsed "explanation") ;;
       Effect.ret {| TextToSql.parsed_sql := sql;
                     TextToSql.parsed_confidence := confidence;
                     TextToSql.parsed_explanation := explanation |})
      (fun error =>
         yield* (Effect.fail
                   (TextToSql.TextToSqlError
                      ("Failed to parse AI response: " +:+ Js.toString error)
                      (Some error))))).

Definition trainFromSchema (ddl : string) : Effect.t unit :=
  Effect.gen (
    embedding <- yield*
      (Effect.tryPromise
         (Effect.await (ai_embed (TextToSql.embeddingModel config) ddl))
         (fun error =>
            TextToSql.TextToSqlError
              ("Failed to generate embedding: " +:+ Js.toString error) (Some error))) ;;
    vectorId <- Effect.call crypto_randomUUID ;;
    timestamp <- Effect.call Date_toISOString ;;
    yield*
      (Effect.mapError
         (fun error =>
            TextToSql.TextToSqlError
              ("Failed to store schema: " +:+ Js.toString error) (Some error))
         (upsertVectors qdrant
            [ {| Qdrant.id := vectorId;
                 Qdrant.vector := embedding;
                 Qdrant.payload :=
                   {| Qdrant.content := ddl;
                      Qdrant.metadata :=
                        Some [ ("type", Js.Str "schema");
                               ("timestamp", Js.Str timestamp) ] |} |} ])) ;;
    Effect.ret tt).

Definition executeQuery (sql : string) : Effect.t (list Js.Value) :=
  Effect.gen (
    queried <- Effect.eval (query postgres sql None) ;;
    result <- yield*
      (Effect.mapError
         (fun error =>
            TextToSql.TextToSqlError
              ("Query execution failed: " +:+ Js.toString error) (Some error))
         queried) ;;
    Effect.ret (Postgres.rows result)).

End make.
End TextToSqlLive.

(** ** src/services/query-pipeline.ts *)

Module QueryPipelineLive.
Section make.

(** `${n}` for a number (Number::toString of the language). *)
Variable number_toString : Js.number -> string.

Variable config : QueryPipeline.QueryPipelineConfig.
Variable textToSql : TextToSqlService.
Variable postgres : PostgresService.

Definition validateSql (sql : string) : Effect.t bool :=
  Effect.gen (
    Effect.try_catch
      (queried <- Effect.eval (query postgres ("EXPLAIN " +:+ sql) None) ;;
       yield*
         (Effect.mapError
            (fun error =>
               QueryPipeline.QueryPipelineError
                 ("SQL validation failed: " +:+ Js.toString error) (Some error))
            queried) ;;
       Effect.ret true)
      (fun _ => Effect.ret false)).

Definition explainQuery (sql : string) : Effect.t (list Js.Value) :=
  Effect.gen (
    queried <- Effect.eval (query postgres ("EXPLAIN ANALYZE " +:+ sql) None) ;;
    result <- yield*
      (Effect.mapError
         (fun error =>
            QueryPipeline.QueryPipelineError
              ("Query explanation failed: " +:+ Js.toString error) (Some error))
         queried) ;;
    Effect.ret (Postgres.rows result)).

Definition askQuestion (question : string) : Effect.t QueryPipeline.QueryResult :=
  Effect.gen (
    yield* (Effect.log ("Processing question: " +:+ question)) ;;
    startTime <- Effect.call Date_now ;;
    sqlResult <- yield*
      (Effect.mapError
         (fun error =>
            QueryPipeline.QueryPipelineError
              ("SQL generation failed: " +:+ Js.toString error) (Some error))
         (generateSql textToSql question)) ;;
    if Js.lt (TextToSql.confidence sqlResult) (QueryPipeline.minConfidence config)
    then
      yield* (Effect.fail
                (QueryPipeline.QueryPipelineError
                   ("Generated SQL has low confidence: "
                    +:+ number_toString (TextToSql.confidence sqlResult)
                    +:+ ". Minimum required: "
                    +:+ number_toString (QueryPipeline.minConfidence config))
                   None))
    else
      (isValid <- yield* (validateSql (TextToSql.sql sqlResult)) ;;
       if negb isValid
       then
         yield* (Effect.fail
                   (QueryPipeline.QueryPipelineError
                      ("Generated SQL is invalid: " +:+ TextToSql.sql sqlResult) None))
       else
         (results <-
            (if negb (QueryPipeline.dryRun config)
             then
               yield*
                 (Effect.mapError
                    (fun error =>
                       QueryPipeline.QueryPipelineError
                         ("Query execution failed: " +:+ Js.toString error) (Some error))
                    (executeQuery textToSql (TextToSql.sql sqlResult)))
             else Effect.ret []) ;;
          endTime <- Effect.call Date_now ;;
          let executionTime := (endTime - startTime)%Z in
          yield* (Effect.log
                    ("Question processed in " +:+ Js.int_toString executionTime +:+ "ms")) ;;
          Effect.ret
            {| QueryPipeline.question := question;
               QueryPipeline.sql := TextToSql.sql sqlResult;
               QueryPipeline.confidence := TextToSql.confidence sqlResult;
               QueryPipeline.explanation := TextToSql.explanation sqlResult;
               QueryPipeline.results := results;
               QueryPipeline.executionTime := executionTime |}))).

End make.
End QueryPipelineLive.

(** ** src/train.ts *)

Module TrainingLive.
Section make.

Variable postgres : PostgresService.
Variable qdrant : QdrantService.
Variable textToSql : TextToSqlService.

Definition trainFromDatabase : Effect.t unit :=
  Effect.gen (
    yield* (Effect.log "Starting database schema training...") ;;
    tables <- yield*
      (Effect.mapError
         (fun error =>
            Train.TrainingError ("Failed to get schema: " +:+ Js.toString error)
                                (Some error))
         (getSchema postgres)) ;;
    yield* (Effect.log
              ("Found " +:+ Js.nat_toString (length tables) +:+ " tables to train on")) ;;
    let vectorSize := 1536 in
    yield*
      (Effect.mapError
         (fun error =>
            Train.TrainingError ("Failed to create collection: " +:+ Js.toString error)
                                (Some error))
         (createCollection qdrant vectorSize)) ;;
    yield*
      (Effect.forEach tables (fun table _ =>
         Effect.gen (
           yield* (Effect.log ("Training on table: " +:+ table)) ;;
           ddl <- yield*
             (Effect.mapError
                (fun error =>
                   Train.TrainingError
                     ("Failed to get table schema: " +:+ Js.toString error) (Some error))
                (getTableSchema postgres table)) ;;
           yield*
             (Effect.mapError
                (fun error =>
                   Train.TrainingError
                     ("Failed to train schema: " +:+ Js.toString error) (Some error))
                (trainFromSchema textToSql ddl)) ;;
           Effect.ret tt))) ;;
    yield* (Effect.log "Database schema training completed") ;;
    Effect.ret tt).

Definition trainFromDdl (ddl : string) : Effect.t unit :=
  Effect.gen (
    yield* (Effect.log "Training from provided DDL...") ;;
    let vectorSize := 1536 in
    yield*
      (Effect.mapError
         (fun error =>
            Train.TrainingError ("Failed to create collection: " +:+ Js.toString error)
                                (Some error))
         (createCollection qdrant vectorSize)) ;;
    yield*
      (Effect.mapError
         (fun error =>
            Train.TrainingError ("Failed to train schema: " +:+ Js.toString error)
                                (Some error))
         (trainFromSchema textToSql ddl)) ;;
    yield* (Effect.log "DDL training completed") ;;
    Effect.ret tt).

Definition trainFromDdlArray (ddls : list string) : Effect.t unit :=
  Effect.gen (
    yield* (Effect.log
              ("Training from " +:+ Js.nat_toString (length ddls) +:+ " DDL statements...")) ;;
    let vectorSize := 1536 in
    yield*
      (Effect.mapError
         (fun error =>
            Train.TrainingError ("Failed to create collection: " +:+ Js.toString error)
                                (Some error))
         (createCollection qdrant vectorSize)) ;;
    yield*
      (Effect.forEach ddls (fun ddl index =>
         Effect.gen (
           yield* (Effect.log
                     ("Training DDL " +:+ Js.nat_toString (index + 1) +:+ "/"
                      +:+ Js.nat_toString (length ddls))) ;;
           yield*
             (Effect.mapError
                (fun error =>
                   Train.TrainingError
                     ("Failed to train schema: " +:+ Js.toString error) (Some error))
                (trainFromSchema textToSql ddl)) ;;
           Effect.ret tt))) ;;
    yield* (Effect.log "DDL array training completed") ;;
    Effect.ret tt).

End make.
End TrainingLive.

(** ** Call-recording doubles of the injected services

    Each method is a single recorded call that succeeds with the reply's
    value or fails with the reply's error, the way the test layers
    (`Layer.succeed(PostgresService, mockPostgresService)` and the like)
    replace a service by functions whose calls are counted. *)

Module Double.

Definition postgres : PostgresService :=
  {| query := fun sql params => inr (Effect.await (postgres_query sql params));
     getSchema := Effect.await postgres_getSchema;
     getTableSchema := fun tableName => Effect.await (postgres_getTableSchema tableName);
     close := Effect.await postgres_close |}.

Definition qdrant : QdrantService :=
  {| createCollection := fun vectorSize => Effect.await (qdrant_createCollection vectorSize);
     upsertVectors := fun vectors => Effect.await (qdrant_upsertVectors vectors);
     search := fun vector limit filter =>
                 Effect.await (qdrant_search vector (default 10 limit) filter);
     deleteCollection := Effect.await qdrant_deleteCollection |}.

Definition textToSql : TextToSqlService :=
  {| generateSql := fun question => Effect.await (textToSql_generateSql question);
     trainFromSchema := fun ddl => Effect.await (textToSql_trainFromSchema ddl);
     executeQuery := fun sql => Effect.await (textToSql_executeQuery sql) |}.

(** The query pipeline and the training orchestrator, provided with the
    doubles. *)
Definition askQuestion (number_toString : Js.number -> string)
    (config : QueryPipeline.QueryPipelineConfig)
    : string -> Effect.t QueryPipeline.QueryResult :=
  QueryPipelineLive.askQuestion number_toString config textToSql postgres.

Definition validateSql : string -> Effect.t bool :=
  QueryPipelineLive.validateSql postgres.

Definition generateSql (JSON_parse : string -> Js.Error + Js.Value)
    (config : TextToSql.TextToSqlConfig)
    : string -> Effect.t TextToSql.ParsedSqlResult :=
  TextToSqlLive.generateSql JSON_parse config qdrant.

Definition trainFromDatabase : Effect.t unit :=
  TrainingLive.trainFromDatabase postgres qdrant textToSql.

Definition trainFromDdl : string -> Effect.t unit :=
  TrainingLive.trainFromDdl qdrant textToSql.

Definition trainFromDdlArray : list string -> Effect.t unit :=
  TrainingLive.trainFromDdlArray qdrant textToSql.

End Double.

(** ** src/index.ts: `SqlGen.allLayers`

    TextToSqlLive is provided with QdrantLive. *)

Module SqlGen.

Definition trainFromSchema (textToSql : TextToSql.TextToSqlConfig)
    (qdrant : Qdrant.QdrantConfig) : string -> Effect.t unit :=
  TextToSqlLive.trainFromSchema textToSql (QdrantLive.make qdrant).

End SqlGen.

(** ** Observing a run *)

Module Trace.

(** The observations [f] makes on a list, in order. *)
Fixpoint collect {A B : Type} (f : A -> option B) (l : list A) : list B :=
  match l with
  | [] => []
  | x :: rest =>
      match f x with
      | Some y => y :: collect f rest
      | None => collect f rest
      end
  end.

(** Calls of the query pipeline to its two services. *)
Inductive PipelineCall : Type :=
| GenerateSql (question : string) (reply : Js.Error + TextToSql.SqlResult)
| Query (sql : string) (params : option (list Js.Value))
        (reply : Js.Error + Postgres.QueryResult)
| ExecuteQuery (sql : string) (reply : Js.Error + list Js.Value).

Definition pipeline_call (e : Effect.Event) : option PipelineCall :=
  let 'Effect.Ev c reply := e in
  match c in Call X return X -> option PipelineCall with
  | textToSql_generateSql question => fun r => Some (GenerateSql question r)
  | postgres_query sql params => fun r => Some (Query sql params r)
  | textToSql_executeQuery sql => fun r => Some (ExecuteQuery sql r)
  | _ => fun _ => None
  end reply.

Definition pipeline_calls (tr : list Effect.Event) : list PipelineCall :=
  collect pipeline_call tr.

(** The statements handed to executeQuery, in call order. *)
Definition executed (cs : list PipelineCall) : list string :=
  collect (fun c => match c with ExecuteQuery sql _ => Some sql | _ => None end) cs.

(** Calls of the training orchestrator to its three services. *)
Inductive TrainCall : Type :=
| GetSchema (reply : Js.Error + list string)
| GetTableSchema (tableName : string) (reply : Js.Error + string)
| CreateCollection (vectorSize : nat) (reply : Js.Error + unit)
| TrainFromSchema (ddl : string) (reply : Js.Error + unit).

Definition train_call (e : Effect.Event) : option TrainCall :=
  let 'Effect.Ev c reply := e in
  match c in Call X return X -> option TrainCall with
  | postgres_getSchema => fun r => Some (GetSchema r)
  | postgres_getTableSchema tableName => fun r => Some (GetTableSchema tableName r)
  | qdrant_createCollection vectorSize => fun r => Some (CreateCollection vectorSize r)
  | textToSql_trainFromSchema ddl => fun r => Some (TrainFromSchema ddl r)
  | _ => fun _ => None
  end reply.

Definition train_calls (tr : list Effect.Event) : list TrainCall :=
  collect train_call tr.

(** Requests that reach the Qdrant server. *)
Inductive ClientCall : Type :=
| GetCollections (reply : Js.Error + list Qdrant.CollectionDescription)
| ClientCreateCollection (name : string) (size : nat) (distance : string)
                         (reply : Js.Error + unit)
| Upsert (name : string) (wait : bool) (points : list Qdrant.VectorRecord)
         (reply : Js.Error + unit)
| Search (name : string) (params : Qdrant.SearchParams)
         (reply : Js.Error + list Qdrant.VectorRecord)
| DeleteCollection (name : string) (reply : Js.Error + unit).

Definition client_call (e : Effect.Event) : option ClientCall :=
  let 'Effect.Ev c reply := e in
  match c in Call X return X -> option ClientCall with
  | client_getCollections => fun r => Some (GetCollections r)
  | client_createCollection name size distance =>
      fun r => Some (ClientCreateCollection name size distance r)
  | client_upsert name wait points => fun r => Some (Upsert name wait points r)
  | client_search name params => fun r => Some (Search name params r)
  | client_deleteCollection name => fun r => Some (DeleteCollection name r)
  | _ => fun _ => None
  end reply.

Definition client_calls (tr : list Effect.Event) : list ClientCall :=
  collect client_call tr.

(** The replies to the completion requests (`generateText`), in call
    order. *)
Definition completion (e : Effect.Event) : option (Js.Error + string) :=
  let 'Effect.Ev c reply := e in
  match c in Call X return X -> option (Js.Error + string) with
  | ai_generateText _ _ _ _ => fun r => Some r
  | _ => fun _ => None
  end reply.

Definition completions (tr : list Effect.Event) : list (Js.Error + string) :=
  collect completion tr.

(** The reply of a service call is a success. *)
Definition train_ok (c : TrainCall) : bool :=
  match c with
  | GetSchema (inr _) | GetTableSchema _ (inr _)
  | CreateCollection _ (inr _) | TrainFromSchema _ (inr _) => true
  | _ => false
  end.

(** The error a service call replied with, if it did. *)
Definition train_error (c : TrainCall) : option Js.Error :=
  match c with
  | GetSchema (inl e) | GetTableSchema _ (inl e)
  | CreateCollection _ (inl e) | TrainFromSchema _ (inl e) => Some e
  | _ => None
  end.

(** The DDL strings handed to trainFromSchema, in call order. *)
Definition trained (cs : list TrainCall) : list string :=
  collect (fun c => match c with TrainFromSchema ddl _ => Some ddl | _ => None end) cs.

(** The sizes handed to createCollection, in call order. *)
Definition created (cs : list TrainCall) : list nat :=
  collect (fun c => match c with CreateCollection n _ => Some n | _ => None end) cs.

(** trainFromSchema called on each DDL string in turn, each call
    succeeding. *)
Definition trained_ok (ddls : list string) : list TrainCall :=
  List.map (fun ddl => TrainFromSchema ddl (inr tt)) ddls.

(** For each table in turn, getTableSchema replying with the table's DDL
    and trainFromSchema succeeding on it. *)
Definition tables_ok (tables : list (string * string)) : list TrainCall :=
  flat_map (fun '(table, ddl) =>
              [GetTableSchema table (inr ddl); TrainFromSchema ddl (inr tt)])
           tables.

(** A run that stops at the first failing call: every call but the last
    succeeded; the run fails exactly when the last call replied with an
    error, with a TrainingError whose cause is that error. *)
Definition fail_fast (exit : Effect.Exit unit) (calls : list TrainCall) : Prop :=
  match exit with
  | Effect.Success _ => forallb train_ok calls = true
  | Effect.Failure e =>
      exists before last cause,
        calls = before ++ [last] /\
        forallb train_ok before = true /\
        train_error last = Some cause /\
        Js.name e = "TrainingError" /\
        Js.cause e = Some cause
  | Effect.Defect _ => False
  end.

End Trace.

(** ** Environments *)

Module World.

(** An environment in which every call succeeds with an empty reply. *)
Definition quiet {X : Type} (c : Call X) : X :=
  match c in Call X return X with
  | Effect_log _ => tt
  | Date_now => 0%Z
  | Date_toISOString => "1970-01-01T00:00:00.000Z"
  | crypto_randomUUID => "00000000-0000-4000-8000-000000000000"
  | client_getCollections => inr []
  | client_createCollection _ _ _ => inr tt
  | client_upsert _ _ _ => inr tt
  | client_search _ _ => inr []
  | client_deleteCollection _ => inr tt
  | ai_embed _ _ => inr []
  | ai_generateText _ _ _ _ => inr EmptyString
  | postgres_query _ _ => inr {| Postgres.rows := [] |}
  | postgres_getSchema => inr []
  | postgres_getTableSchema _ => inr EmptyString
  | postgres_close => inr tt
  | qdrant_createCollection _ => inr tt
  | qdrant_upsertVectors _ => inr tt
  | qdrant_search _ _ _ => inr []
  | qdrant_deleteCollection => inr tt
  | textToSql_generateSql _ =>
      inr {| TextToSql.sql := EmptyString;
             TextToSql.confidence := S754_zero false;
             TextToSql.explanation := EmptyString |}
  | textToSql_trainFromSchema _ => inr tt
  | textToSql_executeQuery _ => inr []
  end.

(** A stateless environment given by its replies. *)
Definition stateless (reply : forall X : Type, Call X -> X) : Effect.Env unit :=
  {| Effect.respond := fun X c w => (reply X c, w) |}.

(** *** test/utils/test-helpers.ts: `class MockQdrantClient` *)

Record MockQdrantClient : Type :=
  { collections : list Qdrant.CollectionDescription;
    vectors : gmap string (list Qdrant.VectorRecord) }.

Definition new_MockQdrantClient : MockQdrantClient :=
  {| collections := []; vectors := ∅ |}.

Definition mock_getCollections (self : MockQdrantClient)
    : list Qdrant.CollectionDescription * MockQdrantClient :=
  (collections self, self).

Definition mock_createCollection (name : string) (size : nat) (self : MockQdrantClient)
    : unit * MockQdrantClient :=
  (tt, {| collections := collections self ++ [ {| Qdrant.name := name; Qdrant.size := size |} ];
          vectors := <[name := []]> (vectors self) |}).

Definition mock_upsert (collectionName : string) (points : list Qdrant.VectorRecord)
    (self : MockQdrantClient) : unit * MockQdrantClient :=
  let vectors_ := default [] (vectors self !! collectionName) in
  let updatedVectors := vectors_ ++ points in
  (tt, {| collections := collections self;
          vectors := <[collectionName := updatedVectors]> (vectors self) |}).

Definition mock_search (collectionName : string) (params : Qdrant.SearchParams)
    (self : MockQdrantClient) : list Qdrant.VectorRecord * MockQdrantClient :=
  let vectors_ := default [] (vectors self !! collectionName) in
  let limit := if Nat.eqb (Qdrant.sp_limit params) 0 then 10 else Qdrant.sp_limit params in
  (take limit vectors_, self).

Definition mock_deleteCollection (collectionName : string) (self : MockQdrantClient)
    : unit * MockQdrantClient :=
  (tt, {| collections :=
            List.filter (fun c => negb (String.eqb (Qdrant.name c) collectionName))
                        (collections self);
          vectors := delete collectionName (vectors self) |}).

(** The Qdrant client replaced by a MockQdrantClient; its methods never
    reject.  Calls that are not Qdrant requests get the quiet reply. *)
Definition mockQdrantClient : Effect.Env MockQdrantClient :=
  {| Effect.respond := fun X c =>
       match c in Call X return MockQdrantClient -> X * MockQdrantClient with
       | client_getCollections => fun self =>
           let '(r, self') := mock_getCollections self in (inr r, self')
       | client_createCollection name size _ => fun self =>
           let '(r, self') := mock_createCollection name size self in (inr r, self')
       | client_upsert name _ points => fun self =>
           let '(r, self') := mock_upsert name points self in (inr r, self')
       | client_search name params => fun self =>
           let '(r, self') := mock_search name params self in (inr r, self')
       | client_deleteCollection name => fun self =>
           let '(r, self') := mock_deleteCollection name self in (inr r, self')
       | c' => fun self => (quiet c', self)
       end |}.

(** *** A Vector Index with the upsert semantics of Qdrant

    The server keeps one point per id: an upsert inserts the point when
    its id is new and overwrites the stored point otherwise.  The
    embedding provider, the UUID generator and the clock are given by the
    values they will return. *)

Record Index : Type :=
  { points : gmap string Qdrant.VectorRecord;
    uuids : list string }.

Definition upsert_points (ps : list Qdrant.VectorRecord)
    (m : gmap string Qdrant.VectorRecord) : gmap string Qdrant.VectorRecord :=
  foldl (fun m p => <[Qdrant.id p := p]> m) m ps.

Definition index (embed : string -> list Js.number) (now : string) : Effect.Env Index :=
  {| Effect.respond := fun X c =>
       match c in Call X return Index -> X * Index with
       | client_upsert _ _ ps => fun w =>
           (inr tt, {| points := upsert_points ps (points w); uuids := uuids w |})
       | crypto_randomUUID => fun w =>
           (hd EmptyString (uuids w), {| points := points w; uuids := tl (uuids w) |})
       | ai_embed _ value => fun w => (inr (embed value), w)
       | Date_toISOString => fun w => (now, w)
       | c' => fun w => (quiet c', w)
       end |}.

End World.

(** ** Inputs of the examples *)

Module Examples.

(** 0.1, 0.3, 0.7, 0.85 and 1.5 as binary64 values *)
Definition n_0_1 : Js.number := S754_finite false 7205759403792794 (-56).
Definition n_0_3 : Js.number := S754_finite false 5404319552844595 (-54).
Definition n_0_7 : Js.number := S754_finite false 6305039478318694 (-53).
Definition n_0_85 : Js.number := S754_finite false 7656119366529843 (-53).
Definition n_1_5 : Js.number := S754_finite false 6755399441055744 (-52).

(** Number::toString on the numbers of the examples *)
Definition number_toString (n : Js.number) : string :=
  if SFeqb n n_0_3 then "0.3"
  else if SFeqb n n_0_7 then "0.7"
  else if SFeqb n n_0_85 then "0.85"
  else "NaN".

Definition config_0_7 (dryRun : bool) : QueryPipeline.QueryPipelineConfig :=
  {| QueryPipeline.minConfidence := n_0_7;
     QueryPipeline.dryRun := dryRun;
     QueryPipeline.maxRetries := 3 |}.

Definition unknown_table : TextToSql.SqlResult :=
  {| TextToSql.sql := "SELECT * FROM unknown_table";
     TextToSql.confidence := n_0_3;
     TextToSql.explanation := "Unable to determine table structure" |}.

Definition all_orders : TextToSql.SqlResult :=
  {| TextToSql.sql := "SELECT * FROM orders";
     TextToSql.confidence := n_0_85;
     TextToSql.explanation := "Gets all orders from the orders table" |}.

Definition seq_scan : Postgres.QueryResult :=
  {| Postgres.rows := [Js.Object [("QUERY PLAN", Js.Str "Seq Scan on orders")]] |}.

(** generateSql answers with [candidate] and the database explains every
    statement; every other call is quiet. *)
Definition answering (candidate : TextToSql.SqlResult) : Effect.Env unit :=
  World.stateless (fun X c =>
    match c in Call X return X with
    | textToSql_generateSql _ => inr candidate
    | postgres_query _ _ => inr seq_scan
    | c' => World.quiet c'
    end).

(** The database rejects every statement with a syntax error. *)
Definition syntax_error : Js.Error :=
  Js.new_Error
    ("syntax error at or near " +:+ TextToSqlLive.dq +:+ "SELCT" +:+ TextToSqlLive.dq).

Definition rejecting : Effect.Env unit :=
  World.stateless (fun X c =>
    match c in Call X return X with
    | postgres_query _ _ => inl syntax_error
    | c' => World.quiet c'
    end).

(** test/utils/test-helpers.ts: `mockQdrantConfig`, `mockTextToSqlConfig` *)
Definition mockQdrantConfig : Qdrant.QdrantConfig :=
  {| Qdrant.url := "http://localhost:6333";
     Qdrant.apiKey := None;
     Qdrant.collectionName := "test_collection" |}.

Definition mockTextToSqlConfig : TextToSql.TextToSqlConfig :=
  {| TextToSql.model := "gpt-4";
     TextToSql.embeddingModel := "text-embedding-3-small";
     TextToSql.maxTokens := Some 1000;
     TextToSql.temperature := Some n_0_1 |}.

(** A MockQdrantClient after
    `createCollection("test_collection", { vectors: { size: 1536 } })`. *)
Definition test_collection_1536 : World.MockQdrantClient :=
  snd (World.mock_createCollection "test_collection" 1536 World.new_MockQdrantClient).

(** The record of the test "should handle dimension mismatch and
    collection errors": `Array(512).fill(0.1)`. *)
Definition invalid_vector : Qdrant.VectorRecord :=
  {| Qdrant.id := "invalid_vector";
     Qdrant.vector := repeat n_0_1 512;
     Qdrant.payload := {| Qdrant.content := "test"; Qdrant.metadata := Some [] |} |}.

(** Three completions and what JSON.parse makes of them: an object without
    any of the three properties, the literal `null`, and an object whose
    confidence is 1.5.  Any other text of the examples is not JSON. *)
Definition empty_object_text : string := "{}".
Definition null_text : string := "null".
Definition overconfident_text : string :=
  "{" +:+ TextToSqlLive.dq +:+ "sql" +:+ TextToSqlLive.dq +:+ ":"
  +:+ TextToSqlLive.dq +:+ "SELECT 1" +:+ TextToSqlLive.dq +:+ ","
  +:+ TextToSqlLive.dq +:+ "confidence" +:+ TextToSqlLive.dq +:+ ":1.5,"
  +:+ TextToSqlLive.dq +:+ "explanation" +:+ TextToSqlLive.dq +:+ ":"
  +:+ TextToSqlLive.dq +:+ "one" +:+ TextToSqlLive.dq +:+ "}".

Definition JSON_parse (text : string) : Js.Error + Js.Value :=
  if String.eqb text empty_object_text then inr (Js.Object [])
  else if String.eqb text null_text then inr Js.Null
  else if String.eqb text overconfident_text then
    inr (Js.Object [ ("sql", Js.Str "SELECT 1");
                     ("confidence", Js.Number n_1_5);
                     ("explanation", Js.Str "one") ])
  else inl (Js.mkError "SyntaxError" "Unexpected token in JSON at position 0" None).

(** The model completes every prompt with [text]. *)
Definition completing (text : string) : Effect.Env unit :=
  World.stateless (fun X c =>
    match c in Call X return X with
    | ai_generateText _ _ _ _ => inr text
    | c' => World.quiet c'
    end).

(** Every call succeeds. *)
Definition quiet : Effect.Env unit := World.stateless (@World.quiet).

(** Schema discovery is refused by the database. *)
Definition permission_denied_error : Js.Error :=
  Js.new_Error "Permission denied for schema information_schema".

Definition permission_denied : Effect.Env unit :=
  World.stateless (fun X c =>
    match c in Call X return X with
    | postgres_getSchema => inl permission_denied_error
    | c' => World.quiet c'
    end).

Definition users_ddl : string := "CREATE TABLE users (id SERIAL PRIMARY KEY);".
Definition orders_ddl : string := "CREATE TABLE orders (id SERIAL PRIMARY KEY);".
Definition products_ddl : string := "CREATE TABLE products (id SERIAL PRIMARY KEY);".

(** trainFromSchema fails on the DDL of `orders` and succeeds on every
    other string. *)
Definition embedding_error : Js.Error :=
  TextToSql.TextToSqlError
    "Failed to generate embedding: Error: Vector embedding failed for complex table structure"
    (Some (Js.new_Error "Vector embedding failed for complex table structure")).

Definition failing_on_orders : Effect.Env unit :=
  World.stateless (fun X c =>
    match c in Call X return X with
    | textToSql_trainFromSchema ddl =>
        if String.eqb ddl orders_ddl then inl embedding_error else inr tt
    | c' => World.quiet c'
    end).

(** The database has the tables `users` and `orders`. *)
Definition two_tables : Effect.Env unit :=
  World.stateless (fun X c =>
    match c in Call X return X with
    | postgres_getSchema => inr ["users"; "orders"]
    | postgres_getTableSchema tableName =>
        inr (if String.eqb tableName "users" then users_ddl else orders_ddl)
    | c' => World.quiet c'
    end).

End Examples.

(** ** Further observers *)

Module Observe.

(** The readings of `Date.now()`, in call order. *)
Definition clock_reading (e : Effect.Event) : option Z :=
  let 'Effect.Ev c reply := e in
  match c in Call X return X -> option Z with
  | Date_now => fun t => Some t
  | _ => fun _ => None
  end reply.

Definition clock (tr : list Effect.Event) : list Z :=
  Trace.collect clock_reading tr.

(** The calls of a run without its log lines (`Effect.log`). *)
Definition unlogged (tr : list Effect.Event) : list Effect.Event :=
  Trace.collect (fun e => let 'Effect.Ev c _ := e in
                          match c with
                          | Effect_log _ => None
                          | _ => Some e
                          end) tr.

(** The questions handed to generateSql, in call order. *)
Definition asked (cs : list Trace.PipelineCall) : list string :=
  Trace.collect (fun c => match c with
                          | Trace.GenerateSql question _ => Some question
                          | _ => None
                          end) cs.

(** The contents of the records a MockQdrantClient holds for a
    collection, in the order of the array. *)
Definition contents (collectionName : string) (self : World.MockQdrantClient)
    : list string :=
  List.map (fun record => Qdrant.content (Qdrant.payload record))
           (default [] (World.vectors self !! collectionName)).

(** A collection of that name is listed. *)
Definition listed (collectionName : string) (self : World.MockQdrantClient) : bool :=
  existsb (fun col => String.eqb (Qdrant.name col) collectionName)
          (World.collections self).

End Observe.

(** ** src/providers/postgres.ts *)

Module PostgresLive.

(** The two methods of `Pool` (pg) the provider calls, each as the effect
    of awaiting the promise it returns. *)
Record Pool : Type :=
  { pool_query : string -> option (list Js.Value) -> Effect.t Postgres.QueryResult;
    pool_end : Effect.t unit }.

(** the statement of getSchema *)
Definition tables_sql : string :=
  "SELECT table_name FROM information_schema.tables WHERE table_schema = 'public'".

(** the statement of getTableSchema, a template literal of eight lines *)
Definition columns_sql : string :=
  let nl := String (ascii_of_nat 10) EmptyString in
  "SELECT " +:+ nl
  +:+ "            column_name, " +:+ nl
  +:+ "            data_type, " +:+ nl
  +:+ "            is_nullable, " +:+ nl
  +:+ "            column_default " +:+ nl
  +:+ "          FROM information_schema.columns " +:+ nl
  +:+ "          WHERE table_name = $1 " +:+ nl
  +:+ "          ORDER BY ordinal_position".

Section make.

Variable number_toString : Js.number -> string.
Variable pool : Pool.

Definition query (sql : string) (params : option (list Js.Value))
    : Effect.t Postgres.QueryResult :=
  Effect.tryPromise
    (pool_query pool sql params)
    (fun error =>
       Postgres.PostgresError ("Query failed: " +:+ Js.toString error) (Some error)).

(** The interface declares `Array<string>`; the elements are the
    `table_name` properties of the rows, whatever they are. *)
Definition getSchema : Effect.t (list Js.Value) :=
  Effect.gen (
    result <- yield* (query tables_sql None) ;;
    names <- Effect.eval
      (JsOps.array_map (fun row => Js.get row "table_name") (Postgres.rows result)) ;;
    Effect.ret names).

(** the callback of `result.rows.map` in getTableSchema *)
Definition column_of (row : Js.Value) : Js.Error + string :=
  match Js.get row "column_name" with
  | inl x => inl x
  | inr column_name =>
  match Js.get row "data_type" with
  | inl x => inl x
  | inr data_type =>
  match Js.get row "is_nullable" with
  | inl x => inl x
  | inr is_nullable =>
  match Js.get row "column_default" with
  | inl x => inl x
  | inr column_default =>
      inr (JsOps.toString number_toString column_name +:+ " "
           +:+ JsOps.toString number_toString data_type
           +:+ (if JsOps.strict_eq_string is_nullable "NO" then " NOT NULL"
                else EmptyString)
           +:+ (if JsOps.truthy column_default
                then " DEFAULT " +:+ JsOps.toString number_toString column_default
                else EmptyString))
  end end end end.

Definition getTableSchema (tableName : string) : Effect.t string :=
  Effect.gen (
    result <- yield* (query columns_sql (Some [Js.Str tableName])) ;;
    columns <- Effect.eval (JsOps.array_map column_of (Postgres.rows result)) ;;
    let columns := String.concat ", " columns in
    Effect.ret ("CREATE TABLE " +:+ tableName +:+ " (" +:+ columns +:+ ")")).

Definition close : Effect.t unit :=
  Effect.tryPromise
    (pool_end pool)
    (fun error =>
       Postgres.PostgresError ("Failed to close pool: " +:+ Js.toString error)
                              (Some error)).

End make.
End PostgresLive.

(** ** Rows of the catalog

    What pg returns for the statement of getTableSchema: one object per
    column of `information_schema.columns`, with `YES` or `NO` for
    `is_nullable` and `null` for a column without default. *)

Module Catalog.

Record Column : Type :=
  { column_name : string;
    data_type : string;
    is_nullable : bool;
    column_default : option string }.

Definition row_of (c : Column) : Js.Value :=
  Js.Object
    [ ("column_name", Js.Str (column_name c));
      ("data_type", Js.Str (data_type c));
      ("is_nullable", Js.Str (if is_nullable c then "YES" else "NO"));
      ("column_default", match column_default c with
                         | Some d => Js.Str d
                         | None => Js.Null
                         end) ].

(** The definition of a column in a DDL string: the name, the type,
    `NOT NULL` unless the column is nullable, and the default when there
    is one. *)
Definition definition_of (c : Column) : string :=
  column_name c +:+ " " +:+ data_type c
  +:+ (if is_nullable c then EmptyString else " NOT NULL")
  +:+ (match column_default c with
       | Some d => " DEFAULT " +:+ d
       | None => EmptyString
       end).

(** for the statement of getSchema: one object per table *)
Definition table_row (table_name : string) : Js.Value :=
  Js.Object [ ("table_name", Js.Str table_name) ].

(** A pool whose two methods are single recorded calls: `query` is
    recorded as [postgres_query], `end` as [postgres_close]. *)
Definition recorded : PostgresLive.Pool :=
  {| PostgresLive.pool_query := fun sql params => Effect.await (postgres_query sql params);
     PostgresLive.pool_end := Effect.await postgres_close |}.

(** Three columns of the table `users` of test/utils/test-helpers.ts, as
    the catalog describes them. *)
Definition users_columns : list Column :=
  [ {| column_name := "id"; data_type := "integer"; is_nullable := false;
       column_default := Some "nextval('users_id_seq'::regclass)" |};
    {| column_name := "name"; data_type := "character varying"; is_nullable := false;
       column_default := None |};
    {| column_name := "created_at"; data_type := "timestamp without time zone";
       is_nullable := true; column_default := Some "CURRENT_TIMESTAMP" |} ].

Definition describing_users : Effect.Env unit :=
  World.stateless (fun X c =>
    match c in Call X return X with
    | postgres_query _ _ => inr {| Postgres.rows := List.map row_of users_columns |}
    | c' => World.quiet c'
    end).

(** The catalog lists the tables `users` and `orders`. *)
Definition listing_tables : Effect.Env unit :=
  World.stateless (fun X c =>
    match c in Call X return X with
    | postgres_query _ _ => inr {| Postgres.rows := List.map table_row ["users"; "orders"] |}
    | c' => World.quiet c'
    end).

(** Every query is rejected: the connection is refused. *)
Definition connection_refused : Js.Error := Js.new_Error "connect ECONNREFUSED".

Definition refusing : Effect.Env unit :=
  World.stateless (fun X c =>
    match c in Call X return X with
    | postgres_query _ _ => inl connection_refused
    | c' => World.quiet c'
    end).

End Catalog.

(** ** src/index.ts: services provided with the live adapters

    `allLayers` provides QueryPipelineLive and TrainingLive with
    TextToSqlLive, which is itself provided with PostgresLive and
    QdrantLive.  The two schema methods of PostgresLive and generateSql
    return values of type `any` where the interfaces declare strings and
    numbers: those three are left to the doubles here. *)

Module Layers.
Section allLayers.

Variable pool : PostgresLive.Pool.
Variable textToSqlConfig : TextToSql.TextToSqlConfig.
Variable qdrantConfig : Qdrant.QdrantConfig.

Definition postgres : PostgresService :=
  Build_PostgresService
    (fun sql params => inr (PostgresLive.query pool sql params))
    (getSchema Double.postgres)
    (getTableSchema Double.postgres)
    (PostgresLive.close pool).

Definition textToSql : TextToSqlService :=
  Build_TextToSqlService
    (generateSql Double.textToSql)
    (SqlGen.trainFromSchema textToSqlConfig qdrantConfig)
    (TextToSqlLive.executeQuery postgres).

End allLayers.
End Layers.

(** ** Further environments *)

Module Samples.

(** The Qdrant server rejects every upsert request. *)
Definition bad_request : Js.Error := Js.new_Error "Bad Request".

Definition rejecting_upserts : Effect.Env unit :=
  World.stateless (fun X c =>
    match c in Call X return X with
    | client_upsert _ _ _ => inl bad_request
    | c' => World.quiet c'
    end).

(** A PostgresService object that has no `query`: the call
    `postgres.query(...)` throws a TypeError.  Its other methods are those
    of the double. *)
Definition not_a_function : Js.Error :=
  Js.mkError "TypeError" "postgres.query is not a function" None.

Definition without_query : PostgresService :=
  Build_PostgresService
    (fun _ _ => inl not_a_function)
    (getSchema Double.postgres)
    (getTableSchema Double.postgres)
    (close Double.postgres).

End Samples.

(** * Properties *)

(** ** Running composite effects *)

Section RunFacts.

Context {W : Type} (env : Effect.Env W).

Lemma run_bind {A B : Type} (m : Effect.t A) (f : A -> Effect.t B) (w : W) :
  Effect.run env (Effect.bind m f) w =
  match Effect.run env m w with
  | (Effect.Success a, tr, w1) =>
      let '(r, tr2, w2) := Effect.run env (f a) w1 in (r, tr ++ tr2, w2)
  | (Effect.Failure e, tr, w1) => (Effect.Failure e, tr, w1)
  | (Effect.Defect d, tr, w1) => (Effect.Defect d, tr, w1)
  end.
Proof.
  revert w. induction m as [a | e | d | X c k IH]; intros w; simpl.
  - destruct (Effect.run env (f a) w) as [[r tr] w2]. reflexivity.
  - reflexivity.
  - reflexivity.
  - destruct (Effect.respond env c w) as [x w1].
    rewrite IH.
    destruct (Effect.run env (k x) w1) as [[[a | e | d] tr] w2]; try reflexivity.
    destruct (Effect.run env (f a) w2) as [[r tr2] w3]. reflexivity.
Qed.

Lemma run_mapError {A : Type} (f : Js.Error -> Js.Error) (m : Effect.t A) (w : W) :
  Effect.run env (Effect.mapError f m) w =
  match Effect.run env m w with
  | (Effect.Failure e, tr, w1) => (Effect.Failure (f e), tr, w1)
  | r => r
  end.
Proof.
  revert w. induction m as [a | e | d | X c k IH]; intros w; simpl; try reflexivity.
  destruct (Effect.respond env c w) as [x w1].
  rewrite IH.
  destruct (Effect.run env (k x) w1) as [[[a | e | d] tr] w2]; reflexivity.
Qed.

End RunFacts.

Lemma collect_app {A B : Type} (f : A -> option B) (l1 l2 : list A) :
  Trace.collect f (l1 ++ l2) = Trace.collect f l1 ++ Trace.collect f l2.
Proof.
  induction l1 as [| x l1 IH]; simpl; [reflexivity |].
  destruct (f x); simpl; rewrite IH; reflexivity.
Qed.

(** One step of a run: name the reply of the next call. *)
Tactic Notation "step" "as" simple_intropattern(reply) :=
  match goal with
  | |- context [Effect.respond ?env ?c ?w] =>
      let w' := fresh "w" in
      destruct (Effect.respond env c w) as [reply w']; simpl
  end.

Ltac step := step as ?.

(** Normalise the trace of a finished run. *)
Ltac tidy :=
  unfold Effect.exit_of, Effect.trace_of, Trace.train_calls in *; simpl in *;
  rewrite ?app_nil_r, ?collect_app; simpl.

(** Expose the run of the `Effect.forEach` loop of the goal, and restate the
    fact [H] about that loop on the very term of the goal. *)
Ltac enter_loop H :=
  unfold Effect.gen, Effect.seq, Effect.yield, Effect.map, Effect.forEach;
  rewrite !run_bind;
  match goal with
  | |- context [Effect.run ?env (Effect.forEach_from ?i ?l ?f) ?w] =>
      change (Effect.run env (Effect.forEach_from _ _ _) _)
        with (Effect.run env (Effect.forEach_from i l f) w) in H
  end.

(** ** The query pipeline (src/services/query-pipeline.ts) *)

Module PipelineFacts.
Section Pipeline.

Variable number_toString : Js.number -> string.
Variable config : QueryPipeline.QueryPipelineConfig.

Context {W : Type} (env : Effect.Env W).

(** validateSql evaluates to [false] exactly when the call of
    `postgres.query` itself throws: the `catch` block of its body is not
    reached by an effect that fails. *)
Lemma validateSql_false_iff_query_throws (postgres : PostgresService) (sql : string)
    (w : W) :
  Effect.exit_of (Effect.run env (QueryPipelineLive.validateSql postgres sql) w)
  = Effect.Success false
  <-> exists x, query postgres ("EXPLAIN " +:+ sql) None = inl x.
Proof.
  unfold QueryPipelineLive.validateSql, Effect.gen, Effect.try_catch, Effect.seq,
    Effect.yield, Effect.map, Effect.ret, Effect.eval.
  destruct (query postgres ("EXPLAIN " +:+ sql) None) as [x | explain]; simpl.
  - split; [eauto | reflexivity].
  - rewrite !run_bind, run_mapError.
    destruct (Effect.run env explain w) as [[[a | e | d] tr] w1]; simpl;
      (split; [discriminate | intros [x Hx]; discriminate Hx]).
Qed.

(** A failure of the explain query is the failure of validateSql, wrapped. *)
Lemma validateSql_propagates_failure (postgres : PostgresService) (sql : string)
    (explain : Effect.t Postgres.QueryResult)
    (w w1 : W) (e : Js.Error) (tr : list Effect.Event) :
  query postgres ("EXPLAIN " +:+ sql) None = inr explain ->
  Effect.run env explain w = (Effect.Failure e, tr, w1) ->
  Effect.run env (QueryPipelineLive.validateSql postgres sql) w =
  (Effect.Failure
     (QueryPipeline.QueryPipelineError ("SQL validation failed: " +:+ Js.toString e) (Some e)),
   tr, w1).
Proof.
  intros Hcall Hq.
  unfold QueryPipelineLive.validateSql, Effect.gen, Effect.try_catch, Effect.seq,
    Effect.yield, Effect.map, Effect.ret, Effect.eval.
  rewrite Hcall. simpl.
  rewrite !run_bind, run_mapError, Hq. reflexivity.
Qed.

(** With `dryRun` set, no run of askQuestion calls executeQuery. *)
Lemma askQuestion_dryRun_never_executes (w : W) (question : string) :
  QueryPipeline.dryRun config = true ->
  Trace.executed (Trace.pipeline_calls (Effect.trace_of (Effect.run env (Double.askQuestion number_toString config question) w)))
  = [].
Proof.
  intros Hdry. unfold Double.askQuestion, QueryPipelineLive.askQuestion. rewrite Hdry.
  simpl. step. step. step as [err | a]; [reflexivity |].
  destruct (Js.lt _ _); simpl; [reflexivity |].
  step as [err | plan]; [reflexivity |].
  step. step. reflexivity.
Qed.

(** C1.  Whenever generateSql returns a candidate whose confidence is
    strictly below `minConfidence`, askQuestion fails with a
    QueryPipelineError that states both confidences, and generateSql is the
    only service call of the run: neither the explain query nor
    executeQuery is called. *)
Theorem askQuestion_low_confidence_never_executes
    (w : W) (question : string) (candidate : TextToSql.SqlResult) :
  let r := Effect.run env (Double.askQuestion number_toString config question) w in
  let calls := Trace.pipeline_calls (Effect.trace_of r) in
  In (Trace.GenerateSql question (inr candidate)) calls ->
  Js.lt (TextToSql.confidence candidate) (QueryPipeline.minConfidence config) = true ->
  Effect.exit_of r =
    Effect.Failure
      (QueryPipeline.QueryPipelineError
         ("Generated SQL has low confidence: "
          +:+ number_toString (TextToSql.confidence candidate)
          +:+ ". Minimum required: "
          +:+ number_toString (QueryPipeline.minConfidence config)) None) /\
  calls = [Trace.GenerateSql question (inr candidate)] /\
  Trace.executed calls = [].
Proof.
  cbv zeta. unfold Double.askQuestion, QueryPipelineLive.askQuestion.
  simpl. step. step. step as [err | a].
  { intros [Hin | []]; discriminate Hin. }
  destruct (Js.lt (TextToSql.confidence a) _) eqn:Hlt; simpl.
  { intros [Hin | []] _. injection Hin as <-. auto. }
  step as [err | plan].
  { intros [Hin | [Hin | []]] Hc; try discriminate Hin.
    injection Hin as <-. congruence. }
  destruct (QueryPipeline.dryRun config); simpl.
  { step. step.
    intros [Hin | [Hin | []]] Hc; try discriminate Hin.
    injection Hin as <-. congruence. }
  step as [err | rows].
  { intros [Hin | [Hin | [Hin | []]]] Hc; try discriminate Hin.
    injection Hin as <-. congruence. }
  step. step.
  intros [Hin | [Hin | [Hin | []]]] Hc; try discriminate Hin.
  injection Hin as <-. congruence.
Qed.

(** C2.  With `dryRun` set, when the candidate passes the confidence gate
    and the explain query succeeds, askQuestion returns a QueryResult with
    empty `results`.  The run makes six calls in all, and they are given
    here in full: the log line, the clock, generateSql, the explain query,
    the clock, the log line.  So executeQuery is not called, and the
    explain query is the only call of any method of the Schema Store. *)
Theorem askQuestion_dryRun_skips_execution
    (w : W) (question : string) (candidate : TextToSql.SqlResult)
    (plan : Postgres.QueryResult) :
  let r := Effect.run env (Double.askQuestion number_toString config question) w in
  let calls := Trace.pipeline_calls (Effect.trace_of r) in
  QueryPipeline.dryRun config = true ->
  In (Trace.GenerateSql question (inr candidate)) calls ->
  Js.lt (TextToSql.confidence candidate) (QueryPipeline.minConfidence config) = false ->
  In (Trace.Query ("EXPLAIN " +:+ TextToSql.sql candidate) None (inr plan)) calls ->
  (exists started finished,
     Effect.exit_of r =
       Effect.Success
         {| QueryPipeline.question := question;
            QueryPipeline.sql := TextToSql.sql candidate;
            QueryPipeline.confidence := TextToSql.confidence candidate;
            QueryPipeline.explanation := TextToSql.explanation candidate;
            QueryPipeline.results := [];
            QueryPipeline.executionTime := (finished - started)%Z |} /\
     Effect.trace_of r =
       [Effect.Ev (Effect_log ("Processing question: " +:+ question)) tt;
        Effect.Ev Date_now started;
        Effect.Ev (textToSql_generateSql question) (inr candidate);
        Effect.Ev (postgres_query ("EXPLAIN " +:+ TextToSql.sql candidate) None)
                  (inr plan);
        Effect.Ev Date_now finished;
        Effect.Ev (Effect_log ("Question processed in "
                               +:+ Js.int_toString (finished - started) +:+ "ms")) tt]) /\
  calls = [Trace.GenerateSql question (inr candidate);
           Trace.Query ("EXPLAIN " +:+ TextToSql.sql candidate) None (inr plan)] /\
  Trace.executed calls = [].
Proof.
  cbv zeta. intros Hdry. unfold Double.askQuestion, QueryPipelineLive.askQuestion.
  unfold Effect.exit_of, Effect.trace_of.
  rewrite Hdry. simpl. step as []. step as t0. step as [err | a].
  { intros [Hin | []]; discriminate Hin. }
  destruct (Js.lt (TextToSql.confidence a) _) eqn:Hlt; simpl.
  { intros [Hin | []] Hc. injection Hin as <-. congruence. }
  step as [err | plan'].
  { intros _ _ [Hin | [Hin | []]]; discriminate Hin. }
  step as t1. step as [].
  intros [Hin | [Hin | []]] _ [Hq | [Hq | []]]; try discriminate.
  injection Hin as <-. injection Hq as <-.
  split; [exists t0, t1; split; reflexivity | split; reflexivity].
Qed.

End Pipeline.

Lemma askQuestion_low_confidence_witness :
  Effect.exit_of
    (Effect.run (Examples.answering Examples.unknown_table)
       (Double.askQuestion Examples.number_toString (Examples.config_0_7 false) "Show me the flibber") tt)
  = Effect.Failure
      (QueryPipeline.QueryPipelineError
         "Generated SQL has low confidence: 0.3. Minimum required: 0.7" None)
  /\ Trace.pipeline_calls
       (Effect.trace_of
          (Effect.run (Examples.answering Examples.unknown_table)
             (Double.askQuestion Examples.number_toString (Examples.config_0_7 false) "Show me the flibber") tt))
     = [Trace.GenerateSql "Show me the flibber" (inr Examples.unknown_table)].
Proof.
  pose proof (askQuestion_low_confidence_never_executes Examples.number_toString (Examples.config_0_7 false)
                (Examples.answering Examples.unknown_table) tt "Show me the flibber" Examples.unknown_table) as H.
  cbv zeta in H.
  destruct H as (Hexit & Hcalls & _).
  - left. reflexivity.
  - reflexivity.
  - split; [exact Hexit | exact Hcalls].
Defined.

Lemma askQuestion_dryRun_witness :
  exists started finished,
    Effect.exit_of
      (Effect.run (Examples.answering Examples.all_orders)
         (Double.askQuestion Examples.number_toString (Examples.config_0_7 true) "Show me all orders") tt)
    = Effect.Success
        {| QueryPipeline.question := "Show me all orders";
           QueryPipeline.sql := "SELECT * FROM orders";
           QueryPipeline.confidence := Examples.n_0_85;
           QueryPipeline.explanation := "Gets all orders from the orders table";
           QueryPipeline.results := [];
           QueryPipeline.executionTime := (finished - started)%Z |} /\
    Effect.trace_of
      (Effect.run (Examples.answering Examples.all_orders)
         (Double.askQuestion Examples.number_toString (Examples.config_0_7 true) "Show me all orders") tt)
    = [Effect.Ev (Effect_log "Processing question: Show me all orders") tt;
       Effect.Ev Date_now started;
       Effect.Ev (textToSql_generateSql "Show me all orders") (inr Examples.all_orders);
       Effect.Ev (postgres_query "EXPLAIN SELECT * FROM orders" None) (inr Examples.seq_scan);
       Effect.Ev Date_now finished;
       Effect.Ev (Effect_log ("Question processed in "
                              +:+ Js.int_toString (finished - started) +:+ "ms")) tt].
Proof.
  pose proof (askQuestion_dryRun_skips_execution Examples.number_toString (Examples.config_0_7 true)
                (Examples.answering Examples.all_orders) tt "Show me all orders" Examples.all_orders Examples.seq_scan) as H.
  cbv zeta in H.
  destruct H as (Hrun & _ & _).
  - reflexivity.
  - left. reflexivity.
  - reflexivity.
  - right. left. reflexivity.
  - exact Hrun.
Defined.

(** C3, at the input of the repository's test "should reject invalid SQL with
    syntax errors": the explain query of a misspelt statement is rejected by
    the database.  validateSql does not return [false]; it fails with a
    QueryPipelineError that wraps the database error. *)
Theorem validateSql_invalid_sql_fails :
  Effect.run Examples.rejecting
    (QueryPipelineLive.validateSql Double.postgres "SELCT * FORM users WHRE id = 1") tt
  = (Effect.Failure
       (QueryPipeline.QueryPipelineError
          ("SQL validation failed: Error: syntax error at or near "
           +:+ TextToSqlLive.dq +:+ "SELCT" +:+ TextToSqlLive.dq)
          (Some Examples.syntax_error)),
     [Effect.Ev (postgres_query "EXPLAIN SELCT * FORM users WHRE id = 1" None)
                (inl Examples.syntax_error)],
     tt).
Proof. reflexivity. Qed.

End PipelineFacts.

(** ** The training orchestrator (src/train.ts) *)

Module TrainingFacts.
Section Training.

Context {W : Type} (env : Effect.Env W).

Lemma train_calls_app (tr1 tr2 : list Effect.Event) :
  Trace.train_calls (tr1 ++ tr2) = Trace.train_calls tr1 ++ Trace.train_calls tr2.
Proof. apply collect_app. Qed.

(** The loop of trainFromDdlArray: either every DDL string is trained, or
    the loop fails at the first string whose training fails. *)
Lemma ddl_loop (total : nat) (ddls : list string) (index : nat) (w : W) :
  let '(exit, tr, _) :=
    Effect.run env
      (Effect.forEach_from index ddls (fun ddl index =>
         Effect.gen (
           yield* (Effect.log
                     ("Training DDL " +:+ Js.nat_toString (index + 1) +:+ "/"
                      +:+ Js.nat_toString total)) ;;
           yield*
             (Effect.mapError
                (fun error =>
                   Train.TrainingError
                     ("Failed to train schema: " +:+ Js.toString error) (Some error))
                (trainFromSchema Double.textToSql ddl)) ;;
           Effect.ret tt))) w in
  (exists units, exit = Effect.Success units /\
                 Trace.train_calls tr = Trace.trained_ok ddls) \/
  (exists i ddl cause,
     ddls !! i = Some ddl /\
     exit = Effect.Failure
              (Train.TrainingError ("Failed to train schema: " +:+ Js.toString cause)
                                   (Some cause)) /\
     Trace.train_calls tr =
       Trace.trained_ok (take i ddls) ++ [Trace.TrainFromSchema ddl (inl cause)]).
Proof.
  revert index w. induction ddls as [| ddl rest IH]; intros index w.
  - simpl. left. eauto.
  - simpl. step. step as [cause | []].
    + right. exists 0, ddl, cause. auto.
    + rewrite run_bind.
      specialize (IH (S index) w1). unfold Trace.train_calls in *.
      destruct (Effect.run env _ w1) as [[[units | e | d] tr] w2]; simpl.
      * destruct IH as [(us & _ & Htr) | (i & d & cause & _ & Hex & _)]; [| discriminate].
        left. rewrite app_nil_r, Htr. eauto.
      * destruct IH as [(us & Hex & _) | (i & d & cause & Hi & Hex & Htr)]; [discriminate |].
        right. exists (S i), d, cause. rewrite Htr. auto.
      * destruct IH as [(us & Hex & _) | (i & d' & cause & _ & Hex & _)]; discriminate.
Qed.

(** The loop of trainFromDatabase: either every table is described and
    trained, or the loop fails at the first table for which getTableSchema
    or trainFromSchema fails. *)
Lemma table_loop (tables : list string) (index : nat) (w : W) :
  let '(exit, tr, _) :=
    Effect.run env
      (Effect.forEach_from index tables (fun table _ =>
         Effect.gen (
           yield* (Effect.log ("Training on table: " +:+ table)) ;;
           ddl <- yield*
             (Effect.mapError
                (fun error =>
                   Train.TrainingError
                     ("Failed to get table schema: " +:+ Js.toString error) (Some error))
                (getTableSchema Double.postgres table)) ;;
           yield*
             (Effect.mapError
                (fun error =>
                   Train.TrainingError
                     ("Failed to train schema: " +:+ Js.toString error) (Some error))
                (trainFromSchema Double.textToSql ddl)) ;;
           Effect.ret tt))) w in
  (exists units ddls,
     exit = Effect.Success units /\
     length ddls = length tables /\
     Trace.train_calls tr = Trace.tables_ok (zip tables ddls)) \/
  (exists i table ddls cause,
     tables !! i = Some table /\
     length ddls = i /\
     exit = Effect.Failure
              (Train.TrainingError
                 ("Failed to get table schema: " +:+ Js.toString cause) (Some cause)) /\
     Trace.train_calls tr =
       Trace.tables_ok (zip (take i tables) ddls)
       ++ [Trace.GetTableSchema table (inl cause)]) \/
  (exists i table ddls ddl cause,
     tables !! i = Some table /\
     length ddls = i /\
     exit = Effect.Failure
              (Train.TrainingError
                 ("Failed to train schema: " +:+ Js.toString cause) (Some cause)) /\
     Trace.train_calls tr =
       Trace.tables_ok (zip (take i tables) ddls)
       ++ [Trace.GetTableSchema table (inr ddl); Trace.TrainFromSchema ddl (inl cause)]).
Proof.
  revert index w. induction tables as [| table rest IH]; intros index w.
  - simpl. left. exists [], []. auto.
  - simpl. step. step as [cause | ddl].
    { right. left. exists 0, table, [], cause. auto. }
    step as [cause | []].
    { right. right. exists 0, table, [], ddl, cause. auto. }
    rewrite run_bind.
    specialize (IH (S index) w2). unfold Trace.train_calls in *.
    destruct (Effect.run env _ w2) as [[[units | e | d] tr] w3]; simpl.
    + destruct IH as [(us & ddls & _ & Hlen & Htr)
                     | [(i & t & ddls & c & _ & _ & Hex & _)
                       | (i & t & ddls & d & c & _ & _ & Hex & _)]]; try discriminate.
      left. exists (tt :: units), (ddl :: ddls). rewrite app_nil_r, Htr. simpl. auto.
    + destruct IH as [(us & ddls & Hex & _)
                     | [(i & t & ddls & c & Hi & Hlen & Hex & Htr)
                       | (i & t & ddls & d & c & Hi & Hlen & Hex & Htr)]]; try discriminate.
      * right. left. exists (S i), t, (ddl :: ddls), c. rewrite Htr. simpl. auto.
      * right. right. exists (S i), t, (ddl :: ddls), d, c. rewrite Htr. simpl. auto.
    + destruct IH as [(us & ddls & Hex & _)
                     | [(i & t & ddls & c & _ & _ & Hex & _)
                       | (i & t & ddls & d' & c & _ & _ & Hex & _)]]; discriminate.
Qed.

(** What a run of trainFromDdlArray looks like. *)
Lemma trainFromDdlArray_shape (ddls : list string) (w : W) :
  let r := Effect.run env (Double.trainFromDdlArray ddls) w in
  let calls := Trace.train_calls (Effect.trace_of r) in
  (Effect.exit_of r = Effect.Success tt /\
   calls = Trace.CreateCollection 1536 (inr tt) :: Trace.trained_ok ddls) \/
  (exists cause,
     Effect.exit_of r =
       Effect.Failure
         (Train.TrainingError ("Failed to create collection: " +:+ Js.toString cause)
                              (Some cause)) /\
     calls = [Trace.CreateCollection 1536 (inl cause)]) \/
  (exists i ddl cause,
     ddls !! i = Some ddl /\
     Effect.exit_of r =
       Effect.Failure
         (Train.TrainingError ("Failed to train schema: " +:+ Js.toString cause)
                              (Some cause)) /\
     calls = Trace.CreateCollection 1536 (inr tt)
             :: Trace.trained_ok (take i ddls) ++ [Trace.TrainFromSchema ddl (inl cause)]).
Proof.
  cbv zeta. unfold Double.trainFromDdlArray, TrainingLive.trainFromDdlArray.
  simpl. step. step as [cause | []].
  { right. left. exists cause. auto. }
  pose proof (ddl_loop (length ddls) ddls 0 w1) as Hloop.
  enter_loop Hloop.
  destruct (Effect.run env _ w1) as [[[units | e | d] tr] w2]; simpl.
  - step. tidy.
    destruct Hloop as [(us & _ & Htr) | (i & d & c & _ & Hex & _)]; [| discriminate].
    left. rewrite Htr, app_nil_r. auto.
  - tidy.
    destruct Hloop as [(us & Hex & _) | (i & d & c & Hi & Hex & Htr)]; [discriminate |].
    injection Hex as ->. right. right. exists i, d, c. rewrite Htr. auto.
  - destruct Hloop as [(us & Hex & _) | (i & d' & c & _ & Hex & _)]; discriminate.
Qed.

(** What a run of trainFromDdl looks like. *)
Lemma trainFromDdl_shape (ddl : string) (w : W) :
  let r := Effect.run env (Double.trainFromDdl ddl) w in
  let calls := Trace.train_calls (Effect.trace_of r) in
  (Effect.exit_of r = Effect.Success tt /\
   calls = [Trace.CreateCollection 1536 (inr tt); Trace.TrainFromSchema ddl (inr tt)]) \/
  (exists cause,
     Effect.exit_of r =
       Effect.Failure
         (Train.TrainingError ("Failed to create collection: " +:+ Js.toString cause)
                              (Some cause)) /\
     calls = [Trace.CreateCollection 1536 (inl cause)]) \/
  (exists cause,
     Effect.exit_of r =
       Effect.Failure
         (Train.TrainingError ("Failed to train schema: " +:+ Js.toString cause)
                              (Some cause)) /\
     calls = [Trace.CreateCollection 1536 (inr tt); Trace.TrainFromSchema ddl (inl cause)]).
Proof.
  cbv zeta. unfold Double.trainFromDdl, TrainingLive.trainFromDdl.
  simpl. step. step as [cause | []].
  { right. left. exists cause. auto. }
  step as [cause | []].
  { right. right. exists cause. auto. }
  step. left. auto.
Qed.

(** What a run of trainFromDatabase looks like: the tables are discovered
    first, the collection is created second, the tables are trained
    third. *)
Lemma trainFromDatabase_shape (w : W) :
  let r := Effect.run env Double.trainFromDatabase w in
  let calls := Trace.train_calls (Effect.trace_of r) in
  (exists cause,
     Effect.exit_of r =
       Effect.Failure
         (Train.TrainingError ("Failed to get schema: " +:+ Js.toString cause)
                              (Some cause)) /\
     calls = [Trace.GetSchema (inl cause)]) \/
  (exists tables cause,
     Effect.exit_of r =
       Effect.Failure
         (Train.TrainingError ("Failed to create collection: " +:+ Js.toString cause)
                              (Some cause)) /\
     calls = [Trace.GetSchema (inr tables); Trace.CreateCollection 1536 (inl cause)]) \/
  (exists tables ddls,
     Effect.exit_of r = Effect.Success tt /\
     length ddls = length tables /\
     calls = Trace.GetSchema (inr tables) :: Trace.CreateCollection 1536 (inr tt)
             :: Trace.tables_ok (zip tables ddls)) \/
  (exists tables i table ddls cause,
     tables !! i = Some table /\
     length ddls = i /\
     Effect.exit_of r =
       Effect.Failure
         (Train.TrainingError ("Failed to get table schema: " +:+ Js.toString cause)
                              (Some cause)) /\
     calls = Trace.GetSchema (inr tables) :: Trace.CreateCollection 1536 (inr tt)
             :: Trace.tables_ok (zip (take i tables) ddls)
             ++ [Trace.GetTableSchema table (inl cause)]) \/
  (exists tables i table ddls ddl cause,
     tables !! i = Some table /\
     length ddls = i /\
     Effect.exit_of r =
       Effect.Failure
         (Train.TrainingError ("Failed to train schema: " +:+ Js.toString cause)
                              (Some cause)) /\
     calls = Trace.GetSchema (inr tables) :: Trace.CreateCollection 1536 (inr tt)
             :: Trace.tables_ok (zip (take i tables) ddls)
             ++ [Trace.GetTableSchema table (inr ddl);
                 Trace.TrainFromSchema ddl (inl cause)]).
Proof.
  cbv zeta. unfold Double.trainFromDatabase, TrainingLive.trainFromDatabase.
  simpl. step. step as [cause | tables].
  { left. exists cause. auto. }
  step. step as [cause | []].
  { right. left. exists tables, cause. auto. }
  pose proof (table_loop tables 0 w3) as Hloop.
  enter_loop Hloop.
  destruct (Effect.run env _ w3) as [[[units | e | d] tr] w4]; simpl.
  - step. tidy.
    destruct Hloop as [(us & ddls & _ & Hlen & Htr)
                      | [(i & t & ddls & c & _ & _ & Hex & _)
                        | (i & t & ddls & d & c & _ & _ & Hex & _)]]; try discriminate.
    right. right. left. exists tables, ddls. rewrite Htr, app_nil_r. auto.
  - tidy.
    destruct Hloop as [(us & ddls & Hex & _)
                      | [(i & t & ddls & c & Hi & Hlen & Hex & Htr)
                        | (i & t & ddls & d & c & Hi & Hlen & Hex & Htr)]]; try discriminate;
      injection Hex as ->.
    + right. right. right. left. exists tables, i, t, ddls, c. rewrite Htr. auto.
    + right. right. right. right. exists tables, i, t, ddls, d, c. rewrite Htr. auto.
  - destruct Hloop as [(us & ddls & Hex & _)
                      | [(i & t & ddls & c & _ & _ & Hex & _)
                        | (i & t & ddls & d' & c & _ & _ & Hex & _)]]; discriminate.
Qed.

Lemma trained_trained_ok (ddls : list string) :
  Trace.trained (Trace.trained_ok ddls) = ddls.
Proof.
  unfold Trace.trained, Trace.trained_ok.
  induction ddls as [| d l IH]; simpl; [| rewrite IH]; reflexivity.
Qed.

Lemma created_trained_ok (ddls : list string) :
  Trace.created (Trace.trained_ok ddls) = [].
Proof. induction ddls as [| d l IH]; simpl; auto. Qed.

Lemma train_ok_trained_ok (ddls : list string) :
  forallb Trace.train_ok (Trace.trained_ok ddls) = true.
Proof. induction ddls as [| d l IH]; simpl; auto. Qed.

Lemma train_ok_tables_ok (tables : list (string * string)) :
  forallb Trace.train_ok (Trace.tables_ok tables) = true.
Proof. induction tables as [| [t d] l IH]; simpl; auto. Qed.

(** Whatever the environment, the first service call of trainFromDatabase
    is schema discovery. *)
Lemma trainFromDatabase_first_call (w : W) :
  exists reply rest,
    Trace.train_calls (Effect.trace_of (Effect.run env Double.trainFromDatabase w))
    = Trace.GetSchema reply :: rest.
Proof.
  destruct (trainFromDatabase_shape w)
    as [(c & _ & ->)
       | [(ts & c & _ & ->)
         | [(ts & ds & _ & _ & ->)
           | [(ts & i & t & ds & c & _ & _ & _ & ->)
             | (ts & i & t & ds & d & c & _ & _ & _ & ->)]]]]; eauto.
Qed.

Lemma GetSchema_not_in_tables_ok (reply : Js.Error + list string)
    (tables : list (string * string)) :
  ~ In (Trace.GetSchema reply) (Trace.tables_ok tables).
Proof.
  induction tables as [| [t d] l IH]; simpl; [tauto |].
  intros [H | [H | H]]; [discriminate | discriminate | auto].
Qed.

Lemma CreateCollection_not_in_tables_ok (n : nat) (reply : Js.Error + unit)
    (tables : list (string * string)) :
  ~ In (Trace.CreateCollection n reply) (Trace.tables_ok tables).
Proof.
  induction tables as [| [t d] l IH]; simpl; [tauto |].
  intros [H | [H | H]]; [discriminate | discriminate | auto].
Qed.

(** The service calls of a run of trainFromDatabase that finds no
    table. *)
Lemma trainFromDatabase_no_tables_calls (w : W) :
  let r := Effect.run env Double.trainFromDatabase w in
  let calls := Trace.train_calls (Effect.trace_of r) in
  In (Trace.GetSchema (inr [])) calls ->
  In (Trace.CreateCollection 1536 (inr tt)) calls ->
  Effect.exit_of r = Effect.Success tt /\
  calls = [Trace.GetSchema (inr []); Trace.CreateCollection 1536 (inr tt)].
Proof.
  cbv zeta.
  destruct (trainFromDatabase_shape w)
    as [(c & _ & ->)
       | [(ts & c & _ & ->)
         | [(ts & ds & Hex & Hlen & ->)
           | [(ts & i & t & ds & c & Hi & _ & _ & ->)
             | (ts & i & t & ds & d & c & Hi & _ & _ & ->)]]]].
  - intros [H | []]; discriminate.
  - intros _ [H | [H | []]]; discriminate.
  - intros [H | [H | H]] _; [| discriminate | destruct (GetSchema_not_in_tables_ok _ _ H)].
    injection H as ->. destruct ds; [| discriminate]. auto.
  - intros [H | [H | H]] _; [| discriminate |].
    + injection H as ->. discriminate.
    + apply in_app_or in H as [H | [H | []]];
        [destruct (GetSchema_not_in_tables_ok _ _ H) | discriminate].
  - intros [H | [H | H]] _; [| discriminate |].
    + injection H as ->. discriminate.
    + apply in_app_or in H as [H | [H | [H | []]]];
        [destruct (GetSchema_not_in_tables_ok _ _ H) | discriminate | discriminate].
Qed.

(** When schema discovery finds no table and the collection can be
    created, trainFromDatabase succeeds after these two calls.  The calls
    of the run are given in full: the two service calls and three log
    lines. *)
Lemma trainFromDatabase_no_tables (w : W) :
  let r := Effect.run env Double.trainFromDatabase w in
  let calls := Trace.train_calls (Effect.trace_of r) in
  In (Trace.GetSchema (inr [])) calls ->
  In (Trace.CreateCollection 1536 (inr tt)) calls ->
  Effect.exit_of r = Effect.Success tt /\
  calls = [Trace.GetSchema (inr []); Trace.CreateCollection 1536 (inr tt)] /\
  Effect.trace_of r =
    [Effect.Ev (Effect_log "Starting database schema training...") tt;
     Effect.Ev postgres_getSchema (inr []);
     Effect.Ev (Effect_log "Found 0 tables to train on") tt;
     Effect.Ev (qdrant_createCollection 1536) (inr tt);
     Effect.Ev (Effect_log "Database schema training completed") tt].
Proof.
  cbv zeta. intros Hschema Hcreate.
  destruct (trainFromDatabase_no_tables_calls w Hschema Hcreate) as [Hexit Hcalls].
  split; [exact Hexit |]. split; [exact Hcalls |].
  revert Hcalls. clear.
  unfold Double.trainFromDatabase, TrainingLive.trainFromDatabase.
  unfold Effect.trace_of, Trace.train_calls.
  simpl. step as []. step as [err | tables].
  { intros H; discriminate H. }
  destruct tables as [| table rest]; simpl.
  - step as []. step as [err | []].
    { intros H; discriminate H. }
    step as []. intros _. reflexivity.
  - intros H. exfalso. revert H.
    step as []. step as [err | []].
    { intros H; discriminate H. }
    step as []. step as [err | ddl].
    { intros H; discriminate H. }
    step as [err | []].
    { intros H; discriminate H. }
    destruct (Effect.run env _ _) as [[exit tr] w']; simpl.
    intros H; discriminate H.
Qed.

(** C6.  In every run of trainFromDdlArray, createCollection is called
    exactly once, with size 1536, before any training call; trainFromSchema
    is called on the DDL strings in input order, one after the other, and
    on no other string.  When no call fails, the run succeeds and
    trainFromSchema has been called exactly once per element of the
    input. *)
Theorem trainFromDdlArray_calls_in_order (ddls : list string) (w : W) :
  let r := Effect.run env (Double.trainFromDdlArray ddls) w in
  let calls := Trace.train_calls (Effect.trace_of r) in
  Trace.created calls = [1536] /\
  (exists reply rest, calls = Trace.CreateCollection 1536 reply :: rest) /\
  (exists n, Trace.trained calls = take n ddls) /\
  (forallb Trace.train_ok calls = true -> Effect.exit_of r = Effect.Success tt) /\
  (Effect.exit_of r = Effect.Success tt -> Trace.trained calls = ddls).
Proof.
  cbv zeta.
  destruct (trainFromDdlArray_shape ddls w)
    as [(Hex & ->) | [(c & Hex & ->) | (i & d & c & Hi & Hex & ->)]].
  - unfold Trace.created, Trace.trained. simpl.
    fold (Trace.created (Trace.trained_ok ddls)).
    fold (Trace.trained (Trace.trained_ok ddls)).
    rewrite created_trained_ok, trained_trained_ok.
    repeat split; eauto.
    exists (length ddls). rewrite firstn_all. reflexivity.
  - rewrite Hex. repeat split; eauto; try discriminate.
    exists 0. reflexivity.
  - rewrite Hex. unfold Trace.created, Trace.trained. simpl.
    rewrite !collect_app. simpl.
    fold (Trace.created (Trace.trained_ok (take i ddls))).
    fold (Trace.trained (Trace.trained_ok (take i ddls))).
    rewrite created_trained_ok, trained_trained_ok.
    repeat split; eauto; try discriminate.
    + exists (S i). symmetry. apply take_S_r. exact Hi.
    + rewrite forallb_app. simpl. rewrite andb_false_r. discriminate.
Qed.

(** C7.  Each of the three training entry points stops at the first
    service call that fails and fails with a TrainingError whose cause is
    the error of that call; it never fails otherwise.  When the
    processing of element [i] fails, the elements before it have been
    trained successfully, in order, and no call is made for the elements
    after it. *)
Theorem training_aborts_on_first_failure (ddl : string) (ddls : list string) (w : W) :
  let db := Effect.run env Double.trainFromDatabase w in
  let one := Effect.run env (Double.trainFromDdl ddl) w in
  let arr := Effect.run env (Double.trainFromDdlArray ddls) w in
  Trace.fail_fast (Effect.exit_of db) (Trace.train_calls (Effect.trace_of db)) /\
  Trace.fail_fast (Effect.exit_of one) (Trace.train_calls (Effect.trace_of one)) /\
  Trace.fail_fast (Effect.exit_of arr) (Trace.train_calls (Effect.trace_of arr)) /\
  (forall e, Effect.exit_of arr = Effect.Failure e ->
     (exists cause,
        Trace.train_calls (Effect.trace_of arr) = [Trace.CreateCollection 1536 (inl cause)]) \/
     (exists i d cause,
        ddls !! i = Some d /\
        Trace.train_calls (Effect.trace_of arr) =
          Trace.CreateCollection 1536 (inr tt)
          :: Trace.trained_ok (take i ddls) ++ [Trace.TrainFromSchema d (inl cause)])) /\
  (forall e, Effect.exit_of db = Effect.Failure e ->
     (exists cause,
        Trace.train_calls (Effect.trace_of db) = [Trace.GetSchema (inl cause)]) \/
     (exists tables cause,
        Trace.train_calls (Effect.trace_of db) =
          [Trace.GetSchema (inr tables); Trace.CreateCollection 1536 (inl cause)]) \/
     (exists tables i table described cause,
        tables !! i = Some table /\
        length described = i /\
        (Trace.train_calls (Effect.trace_of db) =
           Trace.GetSchema (inr tables) :: Trace.CreateCollection 1536 (inr tt)
           :: Trace.tables_ok (zip (take i tables) described)
           ++ [Trace.GetTableSchema table (inl cause)]
         \/ exists d,
           Trace.train_calls (Effect.trace_of db) =
             Trace.GetSchema (inr tables) :: Trace.CreateCollection 1536 (inr tt)
             :: Trace.tables_ok (zip (take i tables) described)
             ++ [Trace.GetTableSchema table (inr d);
                 Trace.TrainFromSchema d (inl cause)]))).
Proof.
  cbv zeta. repeat apply conj.
  - destruct (trainFromDatabase_shape w)
      as [(c & -> & ->)
         | [(ts & c & -> & ->)
           | [(ts & ds & -> & Hlen & ->)
             | [(ts & i & t & ds & c & Hi & _ & -> & ->)
               | (ts & i & t & ds & d & c & Hi & _ & -> & ->)]]]]; simpl.
    + exists [], (Trace.GetSchema (inl c)), c. auto.
    + exists [Trace.GetSchema (inr ts)], (Trace.CreateCollection 1536 (inl c)), c. auto.
    + apply train_ok_tables_ok.
    + exists (Trace.GetSchema (inr ts) :: Trace.CreateCollection 1536 (inr tt)
              :: Trace.tables_ok (zip (take i ts) ds)),
             (Trace.GetTableSchema t (inl c)), c.
      simpl. rewrite train_ok_tables_ok. auto.
    + exists (Trace.GetSchema (inr ts) :: Trace.CreateCollection 1536 (inr tt)
              :: Trace.tables_ok (zip (take i ts) ds) ++ [Trace.GetTableSchema t (inr d)]),
             (Trace.TrainFromSchema d (inl c)), c.
      simpl. rewrite forallb_app, train_ok_tables_ok, <- app_assoc. auto.
  - destruct (trainFromDdl_shape ddl w)
      as [(-> & ->) | [(c & -> & ->) | (c & -> & ->)]]; simpl.
    + reflexivity.
    + exists [], (Trace.CreateCollection 1536 (inl c)), c. auto.
    + exists [Trace.CreateCollection 1536 (inr tt)], (Trace.TrainFromSchema ddl (inl c)), c.
      auto.
  - destruct (trainFromDdlArray_shape ddls w)
      as [(-> & ->) | [(c & -> & ->) | (i & d & c & Hi & -> & ->)]]; simpl.
    + apply train_ok_trained_ok.
    + exists [], (Trace.CreateCollection 1536 (inl c)), c. auto.
    + exists (Trace.CreateCollection 1536 (inr tt) :: Trace.trained_ok (take i ddls)),
             (Trace.TrainFromSchema d (inl c)), c.
      simpl. rewrite train_ok_trained_ok. auto.
  - intros e He.
    destruct (trainFromDdlArray_shape ddls w)
      as [(Hex & _) | [(c & _ & ->) | (i & d & c & Hi & _ & ->)]].
    + rewrite Hex in He. discriminate.
    + left. eauto.
    + right. eauto.
  - intros e He.
    destruct (trainFromDatabase_shape w)
      as [(c & _ & ->)
         | [(ts & c & _ & ->)
           | [(ts & ds & Hex & _ & _)
             | [(ts & i & t & ds & c & Hi & Hlen & _ & ->)
               | (ts & i & t & ds & d & c & Hi & Hlen & _ & ->)]]]].
    + left. eauto.
    + right. left. eauto.
    + rewrite Hex in He. discriminate.
    + right. right. exists ts, i, t, ds, c. auto.
    + right. right. exists ts, i, t, ds, c. eauto.
Qed.

End Training.

Lemma trainFromDdlArray_calls_witness :
  Trace.trained
    (Trace.train_calls
       (Effect.trace_of
          (Effect.run Examples.quiet
             (Double.trainFromDdlArray
                [Examples.users_ddl; Examples.orders_ddl; Examples.products_ddl]) tt)))
  = [Examples.users_ddl; Examples.orders_ddl; Examples.products_ddl].
Proof.
  destruct (@trainFromDdlArray_calls_in_order unit Examples.quiet
              [Examples.users_ddl; Examples.orders_ddl; Examples.products_ddl] tt)
    as (_ & _ & _ & Hok & Hall).
  apply Hall. apply Hok. reflexivity.
Defined.

Lemma training_aborts_witness :
  exists i d cause,
    [Examples.users_ddl; Examples.orders_ddl; Examples.products_ddl] !! i = Some d /\
    Trace.train_calls
      (Effect.trace_of
         (Effect.run Examples.failing_on_orders
            (Double.trainFromDdlArray
               [Examples.users_ddl; Examples.orders_ddl; Examples.products_ddl]) tt))
    = Trace.CreateCollection 1536 (inr tt)
      :: Trace.trained_ok
           (take i [Examples.users_ddl; Examples.orders_ddl; Examples.products_ddl])
      ++ [Trace.TrainFromSchema d (inl cause)].
Proof.
  destruct (@training_aborts_on_first_failure unit Examples.failing_on_orders
              Examples.users_ddl
              [Examples.users_ddl; Examples.orders_ddl; Examples.products_ddl] tt)
    as (_ & _ & _ & Harr & _).
  destruct (Harr (Train.TrainingError
                    ("Failed to train schema: " +:+ Js.toString Examples.embedding_error)
                    (Some Examples.embedding_error)))
    as [(cause & Hcalls) | Hshape].
  - reflexivity.
  - discriminate Hcalls.
  - exact Hshape.
Defined.

(** C5, at the input of the repository's test "should handle schema discovery
    failures properly": the database refuses schema discovery.
    trainFromDatabase asks for the tables first, so it fails on that call and
    createCollection is never called. *)
Theorem trainFromDatabase_discovers_before_creating :
  Effect.exit_of (Effect.run Examples.permission_denied Double.trainFromDatabase tt)
  = Effect.Failure
      (Train.TrainingError
         "Failed to get schema: Error: Permission denied for schema information_schema"
         (Some Examples.permission_denied_error)) /\
  Trace.train_calls
    (Effect.trace_of (Effect.run Examples.permission_denied Double.trainFromDatabase tt))
  = [Trace.GetSchema (inl Examples.permission_denied_error)] /\
  Trace.created
    (Trace.train_calls
       (Effect.trace_of (Effect.run Examples.permission_denied Double.trainFromDatabase tt)))
  = [].
Proof. repeat split; reflexivity. Qed.

(** In a run in which every call succeeds, schema discovery still comes
    before the creation of the collection. *)
Example trainFromDatabase_order_with_two_tables :
  Trace.train_calls
    (Effect.trace_of (Effect.run Examples.two_tables Double.trainFromDatabase tt))
  = [Trace.GetSchema (inr ["users"; "orders"]);
     Trace.CreateCollection 1536 (inr tt);
     Trace.GetTableSchema "users" (inr Examples.users_ddl);
     Trace.TrainFromSchema Examples.users_ddl (inr tt);
     Trace.GetTableSchema "orders" (inr Examples.orders_ddl);
     Trace.TrainFromSchema Examples.orders_ddl (inr tt)].
Proof. reflexivity. Qed.


End TrainingFacts.

(** ** The Vector Index adapter (src/providers/qdrant.ts) *)

Module QdrantFacts.
Section Qdrant.

Variable config : Qdrant.QdrantConfig.

Context {W : Type} (env : Effect.Env W).

Lemma copy_records (vectors : list Qdrant.VectorRecord) :
  List.map (fun v => {| Qdrant.id := Qdrant.id v;
                        Qdrant.vector := Qdrant.vector v;
                        Qdrant.payload := Qdrant.payload v |}) vectors
  = vectors.
Proof.
  induction vectors as [| [i v p] l IH]; simpl; [| rewrite IH]; reflexivity.
Qed.

(** Whatever the records and whatever the environment, upsertVectors sends
    exactly one upsert request, which carries the records as they are; it
    fails exactly when that request is rejected. *)
Lemma upsertVectors_one_request (vectors : list Qdrant.VectorRecord) (w : W) :
  let r := Effect.run env (QdrantLive.upsertVectors config vectors) w in
  exists reply,
    Effect.trace_of r =
      [Effect.Ev (client_upsert (Qdrant.collectionName config) true vectors) reply] /\
    Effect.exit_of r =
      match reply with
      | inl error =>
          Effect.Failure
            (Qdrant.QdrantError ("Failed to upsert vectors: " +:+ Js.toString error)
                                (Some error))
      | inr _ => Effect.Success tt
      end.
Proof.
  cbv zeta. unfold QdrantLive.upsertVectors. rewrite copy_records.
  simpl. step as [error | []]; eexists; split; reflexivity.
Qed.

(** C10.  When the listing of the collections contains one with the
    configured name, whatever its size and whatever the requested size,
    createCollection succeeds and the listing is the only request it
    makes: no collection is created, none is changed. *)
Theorem createCollection_keeps_existing_collection
    (vectorSize : nat) (w : W)
    (listed : list Qdrant.CollectionDescription)
    (existing : Qdrant.CollectionDescription) :
  let r := Effect.run env (QdrantLive.createCollection config vectorSize) w in
  In (Trace.GetCollections (inr listed)) (Trace.client_calls (Effect.trace_of r)) ->
  In existing listed ->
  Qdrant.name existing = Qdrant.collectionName config ->
  Effect.exit_of r = Effect.Success tt /\
  Effect.trace_of r = [Effect.Ev client_getCollections (inr listed)].
Proof.
  cbv zeta. unfold QdrantLive.createCollection, Effect.tryPromise.
  simpl. step as [error | collections].
  { intros [H | []]; discriminate. }
  destruct (existsb _ collections) eqn:Hexists; simpl.
  - intros [H | []] _ _. injection H as ->. auto.
  - step as [error | []]; simpl.
    + intros [H | [H | []]] Hin Hname; try discriminate. injection H as ->.
      assert (existsb (fun col => String.eqb (Qdrant.name col) (Qdrant.collectionName config))
                      listed = true) as Hyes; [| congruence].
      apply existsb_exists. exists existing. split; [exact Hin |].
      apply String.eqb_eq. exact Hname.
    + intros [H | [H | []]] Hin Hname; try discriminate. injection H as ->.
      assert (existsb (fun col => String.eqb (Qdrant.name col) (Qdrant.collectionName config))
                      listed = true) as Hyes; [| congruence].
      apply existsb_exists. exists existing. split; [exact Hin |].
      apply String.eqb_eq. exact Hname.
Qed.

End Qdrant.

(** A collection of size 1536 exists; a collection of size 512 is requested. *)
Lemma createCollection_keeps_existing_witness :
  Effect.exit_of
    (Effect.run World.mockQdrantClient
       (QdrantLive.createCollection Examples.mockQdrantConfig 512)
       Examples.test_collection_1536)
  = Effect.Success tt /\
  Effect.trace_of
    (Effect.run World.mockQdrantClient
       (QdrantLive.createCollection Examples.mockQdrantConfig 512)
       Examples.test_collection_1536)
  = [Effect.Ev client_getCollections
       (inr [ {| Qdrant.name := "test_collection"; Qdrant.size := 1536 |} ])].
Proof.
  apply (@createCollection_keeps_existing_collection Examples.mockQdrantConfig
           World.MockQdrantClient World.mockQdrantClient 512 Examples.test_collection_1536
           [ {| Qdrant.name := "test_collection"; Qdrant.size := 1536 |} ]
           {| Qdrant.name := "test_collection"; Qdrant.size := 1536 |}).
  - left. reflexivity.
  - left. reflexivity.
  - reflexivity.
Defined.

(** The MockQdrantClient is left as it was. *)
Example createCollection_leaves_mock_unchanged :
  Effect.world_of
    (Effect.run World.mockQdrantClient
       (QdrantLive.createCollection Examples.mockQdrantConfig 512)
       Examples.test_collection_1536)
  = Examples.test_collection_1536.
Proof. reflexivity. Qed.

(** C4, at the input of the repository's test "should handle dimension
    mismatch and collection errors": a record whose vector has 512
    components is upserted into a collection of size 1536.  upsertVectors
    does not check the length: the request is sent to the client and, with
    MockQdrantClient, the record is stored and the operation succeeds. *)
Theorem upsertVectors_sends_wrong_dimension :
  length (Qdrant.vector Examples.invalid_vector) = 512 /\
  World.collections Examples.test_collection_1536
  = [ {| Qdrant.name := "test_collection"; Qdrant.size := 1536 |} ] /\
  Effect.exit_of
    (Effect.run World.mockQdrantClient
       (QdrantLive.upsertVectors Examples.mockQdrantConfig [Examples.invalid_vector])
       Examples.test_collection_1536)
  = Effect.Success tt /\
  Trace.client_calls
    (Effect.trace_of
       (Effect.run World.mockQdrantClient
          (QdrantLive.upsertVectors Examples.mockQdrantConfig [Examples.invalid_vector])
          Examples.test_collection_1536))
  = [Trace.Upsert "test_collection" true [Examples.invalid_vector] (inr tt)] /\
  World.vectors
    (Effect.world_of
       (Effect.run World.mockQdrantClient
          (QdrantLive.upsertVectors Examples.mockQdrantConfig [Examples.invalid_vector])
          Examples.test_collection_1536))
  !! "test_collection"
  = Some [Examples.invalid_vector].
Proof.
  repeat split; reflexivity.
Qed.

End QdrantFacts.

(** ** The Generation Service (src/services/text-to-sql.ts) *)

Module TextToSqlFacts.
Section Generation.

Variable JSON_parse : string -> Js.Error + Js.Value.
Variable config : TextToSql.TextToSqlConfig.

Context {W : Type} (env : Effect.Env W).

(** C8, as the code has it.  When the model has completed the prompt with
    [text], that completion is the only one requested, and
    - if JSON.parse throws on [text], generateSql fails with a
      TextToSqlError whose cause is the exception;
    - if [text] parses to `null`, reading `parsed.sql` throws a TypeError
      and generateSql fails with a TextToSqlError whose cause is that
      TypeError;
    - if [text] parses to an object, generateSql succeeds with the
      properties `sql`, `confidence` and `explanation` of that object
      exactly as parsed, and with `undefined` for each one the object does
      not have;
    - if [text] parses to a boolean, a number, a string or an array,
      generateSql succeeds with three `undefined`. *)
Theorem generateSql_returns_parsed_properties (question text : string) (w : W) :
  let r := Effect.run env (Double.generateSql JSON_parse config question) w in
  In (inr text) (Trace.completions (Effect.trace_of r)) ->
  Trace.completions (Effect.trace_of r) = [inr text] /\
  (forall x,
     JSON_parse text = inl x ->
     Effect.exit_of r =
       Effect.Failure
         (TextToSql.TextToSqlError ("Failed to parse AI response: " +:+ Js.toString x)
                                   (Some x))) /\
  (JSON_parse text = inr Js.Null ->
   exists x,
     Js.name x = "TypeError" /\
     Effect.exit_of r =
       Effect.Failure
         (TextToSql.TextToSqlError ("Failed to parse AI response: " +:+ Js.toString x)
                                   (Some x))) /\
  (forall fields,
     JSON_parse text = inr (Js.Object fields) ->
     Effect.exit_of r =
       Effect.Success
         {| TextToSql.parsed_sql :=
              default Js.Undefined (Js.lookup_field "sql" fields);
            TextToSql.parsed_confidence :=
              default Js.Undefined (Js.lookup_field "confidence" fields);
            TextToSql.parsed_explanation :=
              default Js.Undefined (Js.lookup_field "explanation" fields) |}) /\
  (forall parsed,
     JSON_parse text = inr parsed ->
     match parsed with
     | Js.Bool _ | Js.Number _ | Js.Str _ | Js.Array _ => True
     | _ => False
     end ->
     Effect.exit_of r =
       Effect.Success
         {| TextToSql.parsed_sql := Js.Undefined;
            TextToSql.parsed_confidence := Js.Undefined;
            TextToSql.parsed_explanation := Js.Undefined |}).
Proof.
  cbv zeta. unfold Double.generateSql, TextToSqlLive.generateSql, Effect.tryPromise.
  unfold Effect.exit_of, Effect.trace_of.
  simpl. step as [error | embedding].
  { intros []. }
  step as [error | similar].
  { intros []. }
  step as [error | completion].
  { intros [H | []]. discriminate H. }
  destruct (JSON_parse completion) as [x | parsed] eqn:Hparse; simpl.
  { intros [H | []]. injection H as ->. rewrite Hparse.
    repeat split; try discriminate.
    intros x' Hx'. injection Hx' as ->. reflexivity. }
  destruct parsed; simpl; intros [H | []]; injection H as ->; rewrite Hparse;
    repeat split; try discriminate;
    try (intros ? H; injection H as <-; try reflexivity; intros []).
  intros _. eexists. split; [| reflexivity]. reflexivity.
Qed.

End Generation.

Section Training.

Variable textToSql : TextToSql.TextToSqlConfig.
Variable qdrant : Qdrant.QdrantConfig.
Variable embed : string -> list Js.number.
Variable now : string.


(** Whatever the environment, one run of trainFromSchema asks for one
    UUID at most and sends one upsert request at most, for a single record
    whose id is that UUID; it sends no other request to the Vector Index, so
    it never looks for a record that holds the same DDL string. *)
Lemma trainFromSchema_requests {W : Type} (env : Effect.Env W) (ddl : string) (w : W) :
  let r := Effect.run env (SqlGen.trainFromSchema textToSql qdrant ddl) w in
  Trace.client_calls (Effect.trace_of r) = [] \/
  exists embedding uuid timestamp reply,
    In (Effect.Ev crypto_randomUUID uuid) (Effect.trace_of r) /\
    Trace.client_calls (Effect.trace_of r) =
      [Trace.Upsert (Qdrant.collectionName qdrant) true
         [ {| Qdrant.id := uuid;
              Qdrant.vector := embedding;
              Qdrant.payload :=
                {| Qdrant.content := ddl;
                   Qdrant.metadata :=
                     Some [ ("type", Js.Str "schema");
                            ("timestamp", Js.Str timestamp) ] |} |} ]
         reply].
Proof.
  cbv zeta. unfold SqlGen.trainFromSchema, TextToSqlLive.trainFromSchema.
  unfold Effect.trace_of. simpl.
  step as [error | embedding]; [left; reflexivity |].
  step as uuid. step as timestamp. step as [error | []];
    right; exists embedding, uuid, timestamp; eexists; (split; [| reflexivity]);
    right; left; reflexivity.
Qed.


End Training.

Lemma generateSql_returns_parsed_witness :
  Effect.exit_of
    (Effect.run (Examples.completing Examples.overconfident_text)
       (Double.generateSql Examples.JSON_parse Examples.mockTextToSqlConfig "How many?") tt)
  = Effect.Success
      {| TextToSql.parsed_sql := Js.Str "SELECT 1";
         TextToSql.parsed_confidence := Js.Number Examples.n_1_5;
         TextToSql.parsed_explanation := Js.Str "one" |}.
Proof.
  destruct (generateSql_returns_parsed_properties Examples.JSON_parse
              Examples.mockTextToSqlConfig
              (Examples.completing Examples.overconfident_text)
              "How many?" Examples.overconfident_text tt)
    as (_ & _ & _ & Hobject & _).
  - left. reflexivity.
  - apply (Hobject [ ("sql", Js.Str "SELECT 1");
                     ("confidence", Js.Number Examples.n_1_5);
                     ("explanation", Js.Str "one") ]).
    reflexivity.
Defined.

(** C8 as stated fails: the completion `{}` parses, none of the three
    properties is present, and generateSql succeeds. *)
Lemma generateSql_missing_fields_succeeds :
Examples.JSON_parse Examples.empty_object_text = inr (Js.Object []) /\
Effect.exit_of
  (Effect.run (Examples.completing Examples.empty_object_text)
     (Double.generateSql Examples.JSON_parse Examples.mockTextToSqlConfig "How many?") tt)
= Effect.Success
    {| TextToSql.parsed_sql := Js.Undefined;
       TextToSql.parsed_confidence := Js.Undefined;
       TextToSql.parsed_explanation := Js.Undefined |} /\
~ (exists e,
     Effect.exit_of
       (Effect.run (Examples.completing Examples.empty_object_text)
          (Double.generateSql Examples.JSON_parse Examples.mockTextToSqlConfig "How many?")
          tt)
     = Effect.Failure e).
Proof.
  split; [reflexivity |]. split; [reflexivity |].
  intros [e He]. discriminate He.
Qed.



End TextToSqlFacts.

(** ** More on the query pipeline *)

Module PipelineExtra.
Section Pipeline.

Variable number_toString : Js.number -> string.
Variable config : QueryPipeline.QueryPipelineConfig.

Context {W : Type} (env : Effect.Env W).

(** validateSql is decided by the call of `postgres.query` alone.  When
    the call throws, validateSql returns [false] and nothing has been asked
    of the outside world.  When the call returns an effect, validateSql
    follows that effect, with its calls and its final state: [true] when
    it succeeds, the wrapped error when it fails, and not [false]. *)
Theorem validateSql_follows_explain (postgres : PostgresService) (sql : string) (w : W) :
  Effect.run env (QueryPipelineLive.validateSql postgres sql) w =
  match query postgres ("EXPLAIN " +:+ sql) None with
  | inl _ => (Effect.Success false, [], w)
  | inr explain =>
      match Effect.run env explain w with
      | (Effect.Success _, tr, w1) => (Effect.Success true, tr, w1)
      | (Effect.Failure e, tr, w1) =>
          (Effect.Failure
             (QueryPipeline.QueryPipelineError
                ("SQL validation failed: " +:+ Js.toString e) (Some e)), tr, w1)
      | (Effect.Defect d, tr, w1) => (Effect.Defect d, tr, w1)
      end
  end.
Proof.
  unfold QueryPipelineLive.validateSql, Effect.gen, Effect.try_catch, Effect.seq,
    Effect.yield, Effect.map, Effect.ret, Effect.eval.
  destruct (query postgres ("EXPLAIN " +:+ sql) None) as [x | explain]; simpl;
    [reflexivity |].
  rewrite !run_bind, run_mapError.
  destruct (Effect.run env explain w) as [[[a | e | d] tr] w1]; simpl;
    rewrite ?app_nil_r; reflexivity.
Qed.

(** executeQuery is called only as the last of three calls: after
    generateSql has returned a candidate for this question that passes the
    confidence gate, and after the explain query of the candidate's SQL
    has succeeded; the statement executed is the candidate's SQL, and
    `dryRun` is off.  The calls of such a run are given in full: the log
    line, the clock, these three calls and, when executeQuery succeeded,
    the clock and the log line again. *)
Theorem askQuestion_executes_only_validated_sql
    (w : W) (question sql : string) (reply : Js.Error + list Js.Value) :
  let r := Effect.run env (Double.askQuestion number_toString config question) w in
  let calls := Trace.pipeline_calls (Effect.trace_of r) in
  In (Trace.ExecuteQuery sql reply) calls ->
  QueryPipeline.dryRun config = false /\
  exists candidate plan,
    TextToSql.sql candidate = sql /\
    Js.lt (TextToSql.confidence candidate) (QueryPipeline.minConfidence config) = false /\
    calls = [Trace.GenerateSql question (inr candidate);
             Trace.Query ("EXPLAIN " +:+ sql) None (inr plan);
             Trace.ExecuteQuery sql reply] /\
    exists started finished,
      Effect.trace_of r =
        [Effect.Ev (Effect_log ("Processing question: " +:+ question)) tt;
         Effect.Ev Date_now started;
         Effect.Ev (textToSql_generateSql question) (inr candidate);
         Effect.Ev (postgres_query ("EXPLAIN " +:+ sql) None) (inr plan);
         Effect.Ev (textToSql_executeQuery sql) reply]
        ++ match reply with
           | inl _ => []
           | inr _ =>
               [Effect.Ev Date_now finished;
                Effect.Ev (Effect_log ("Question processed in "
                                       +:+ Js.int_toString (finished - started)
                                       +:+ "ms")) tt]
           end.
Proof.
  cbv zeta. unfold Double.askQuestion, QueryPipelineLive.askQuestion.
  unfold Effect.trace_of.
  simpl. step as []. step as started. step as [err | a].
  { intros [H | []]; discriminate H. }
  destruct (Js.lt (TextToSql.confidence a) _) eqn:Hlt; simpl.
  { intros [H | []]; discriminate H. }
  step as [err | plan].
  { intros [H | [H | []]]; discriminate H. }
  destruct (QueryPipeline.dryRun config); simpl.
  { step. step. intros [H | [H | []]]; discriminate H. }
  step as [err | rows].
  - intros [H | [H | [H | []]]]; try discriminate H. injection H as <- <-.
    split; [reflexivity |]. exists a, plan.
    split; [reflexivity |]. split; [exact Hlt |]. split; [reflexivity |].
    exists started, 0%Z. reflexivity.
  - step as finished. step as [].
    intros [H | [H | [H | []]]]; try discriminate H. injection H as <- <-.
    split; [reflexivity |]. exists a, plan.
    split; [reflexivity |]. split; [exact Hlt |]. split; [reflexivity |].
    exists started, finished. reflexivity.
Qed.

(** A successful askQuestion returns the question, the candidate's SQL,
    confidence and explanation unchanged, the rows of executeQuery (none
    with `dryRun`), and as execution time the difference of the two clock
    readings of the run. *)
Theorem askQuestion_result (w : W) (question : string) (qr : QueryPipeline.QueryResult) :
  let r := Effect.run env (Double.askQuestion number_toString config question) w in
  let calls := Trace.pipeline_calls (Effect.trace_of r) in
  Effect.exit_of r = Effect.Success qr ->
  exists candidate plan started finished,
    qr = {| QueryPipeline.question := question;
            QueryPipeline.sql := TextToSql.sql candidate;
            QueryPipeline.confidence := TextToSql.confidence candidate;
            QueryPipeline.explanation := TextToSql.explanation candidate;
            QueryPipeline.results := QueryPipeline.results qr;
            QueryPipeline.executionTime := (finished - started)%Z |} /\
    Observe.clock (Effect.trace_of r) = [started; finished] /\
    Js.lt (TextToSql.confidence candidate) (QueryPipeline.minConfidence config) = false /\
    calls =
      Trace.GenerateSql question (inr candidate)
      :: Trace.Query ("EXPLAIN " +:+ TextToSql.sql candidate) None (inr plan)
      :: (if QueryPipeline.dryRun config then []
          else [Trace.ExecuteQuery (TextToSql.sql candidate)
                  (inr (QueryPipeline.results qr))]) /\
    (QueryPipeline.dryRun config = true -> QueryPipeline.results qr = []).
Proof.
  cbv zeta. unfold Double.askQuestion, QueryPipelineLive.askQuestion.
  unfold Effect.exit_of, Effect.trace_of, Observe.clock.
  simpl. step. step as started. step as [err | a].
  { discriminate. }
  destruct (Js.lt (TextToSql.confidence a) _) eqn:Hlt; simpl.
  { discriminate. }
  step as [err | plan].
  { discriminate. }
  destruct (QueryPipeline.dryRun config); simpl.
  { step as finished. step. intros H. injection H as <-.
    exists a, plan, started, finished. simpl. auto. }
  step as [err | rows].
  { discriminate. }
  step as finished. step. intros H. injection H as <-.
  exists a, plan, started, finished. simpl. repeat split; auto. discriminate.
Qed.

(** The ways askQuestion can end without a result, whatever the two
    services are.  A failure is one of five QueryPipelineErrors:
    generation failed (cause: the failure of generateSql), low confidence
    (no cause; the candidate is below `minConfidence`), validation failed
    (cause: the failure of the effect `postgres.query` returned), invalid
    SQL (no cause; only when the call of `postgres.query` threw), execution
    failed (cause: the failure of executeQuery; only without `dryRun`).
    A defect is the defect of one of the three effects of the services:
    askQuestion adds none of its own. *)
Theorem askQuestion_failures
    (textToSql : TextToSqlService) (postgres : PostgresService)
    (w : W) (question : string) :
  let r :=
    Effect.run env
      (QueryPipelineLive.askQuestion number_toString config textToSql postgres question)
      w in
  let generated := fun w' =>
    Effect.exit_of (Effect.run env (generateSql textToSql question) w') in
  let explained := fun (candidate : TextToSql.SqlResult) explain =>
    query postgres ("EXPLAIN " +:+ TextToSql.sql candidate) None = inr explain in
  let executed := fun (candidate : TextToSql.SqlResult) w' =>
    Effect.exit_of (Effect.run env (executeQuery textToSql (TextToSql.sql candidate)) w') in
  match Effect.exit_of r with
  | Effect.Success _ => True
  | Effect.Failure e =>
      (exists cause w',
         generated w' = Effect.Failure cause /\
         e = QueryPipeline.QueryPipelineError
               ("SQL generation failed: " +:+ Js.toString cause) (Some cause)) \/
      (exists candidate w',
         generated w' = Effect.Success candidate /\
         ((Js.lt (TextToSql.confidence candidate) (QueryPipeline.minConfidence config)
           = true /\
           e = QueryPipeline.QueryPipelineError
                 ("Generated SQL has low confidence: "
                  +:+ number_toString (TextToSql.confidence candidate)
                  +:+ ". Minimum required: "
                  +:+ number_toString (QueryPipeline.minConfidence config)) None) \/
          (exists explain cause w'',
             explained candidate explain /\
             Effect.exit_of (Effect.run env explain w'') = Effect.Failure cause /\
             e = QueryPipeline.QueryPipelineError
                   ("SQL validation failed: " +:+ Js.toString cause) (Some cause)) \/
          (exists thrown,
             query postgres ("EXPLAIN " +:+ TextToSql.sql candidate) None = inl thrown /\
             e = QueryPipeline.QueryPipelineError
                   ("Generated SQL is invalid: " +:+ TextToSql.sql candidate) None) \/
          (exists cause w'',
             QueryPipeline.dryRun config = false /\
             executed candidate w'' = Effect.Failure cause /\
             e = QueryPipeline.QueryPipelineError
                   ("Query execution failed: " +:+ Js.toString cause) (Some cause))))
  | Effect.Defect d =>
      (exists w', generated w' = Effect.Defect d) \/
      (exists candidate w',
         generated w' = Effect.Success candidate /\
         ((exists explain w'',
             explained candidate explain /\
             Effect.exit_of (Effect.run env explain w'') = Effect.Defect d) \/
          (exists w'',
             QueryPipeline.dryRun config = false /\
             executed candidate w'' = Effect.Defect d)))
  end.
Proof.
  cbv zeta. unfold QueryPipelineLive.askQuestion, QueryPipelineLive.validateSql.
  unfold Effect.exit_of.
  unfold Effect.gen, Effect.try_catch, Effect.seq, Effect.yield, Effect.map, Effect.ret,
    Effect.eval, Effect.call, Effect.log.
  simpl. step. step as started.
  rewrite !run_bind, run_mapError.
  destruct (Effect.run env (generateSql textToSql question) w1)
    as [[[candidate | cause | d] tr] w2] eqn:Hgenerated; simpl.
  2: { left. exists cause, w1. rewrite Hgenerated. auto. }
  2: { left. exists w1. rewrite Hgenerated. reflexivity. }
  destruct (Js.lt (TextToSql.confidence candidate) _) eqn:Hlt; simpl.
  { right. exists candidate, w1. rewrite Hgenerated. auto. }
  destruct (query postgres ("EXPLAIN " +:+ TextToSql.sql candidate) None)
    as [thrown | explain] eqn:Hquery; simpl.
  { right. exists candidate, w1. rewrite Hgenerated.
    split; [reflexivity |]. right. right. left. eauto. }
  rewrite !run_bind, run_mapError.
  destruct (Effect.run env explain w2) as [[[plan | cause | d] tr2] w3] eqn:Hexplain;
    simpl.
  2: { right. exists candidate, w1. rewrite Hgenerated.
       split; [reflexivity |]. right. left. exists explain, cause, w2.
       rewrite Hexplain. auto. }
  2: { right. exists candidate, w1. rewrite Hgenerated.
       split; [reflexivity |]. left. exists explain, w2. rewrite Hexplain. auto. }
  destruct (QueryPipeline.dryRun config) eqn:Hdry; simpl.
  { step. step. exact I. }
  rewrite !run_bind, run_mapError.
  destruct (Effect.run env (executeQuery textToSql (TextToSql.sql candidate)) w3)
    as [[[rows | cause | d] tr3] w4] eqn:Hexecuted; simpl.
  - step. step. exact I.
  - right. exists candidate, w1. rewrite Hgenerated.
    split; [reflexivity |]. right. right. right. exists cause, w3.
    rewrite Hexecuted. auto.
  - right. exists candidate, w1. rewrite Hgenerated.
    split; [reflexivity |]. right. exists w3. rewrite Hexecuted. auto.
Qed.

(** Whatever `maxRetries` is, generateSql is called exactly once in every
    run, also in a run in which it fails: the pipeline never retries. *)
Theorem askQuestion_never_retries (w : W) (question : string) :
  Observe.asked
    (Trace.pipeline_calls
       (Effect.trace_of
          (Effect.run env (Double.askQuestion number_toString config question) w)))
  = [question].
Proof.
  unfold Double.askQuestion, QueryPipelineLive.askQuestion.
  unfold Effect.trace_of.
  simpl. step. step. step as [err | a]; [reflexivity |].
  destruct (Js.lt (TextToSql.confidence a) _) eqn:Hlt; simpl; [reflexivity |].
  step as [err | plan]; [reflexivity |].
  destruct (QueryPipeline.dryRun config); simpl.
  { step. step. reflexivity. }
  step as [err | rows]; [reflexivity |].
  step. step. reflexivity.
Qed.

End Pipeline.

(** `maxRetries` is not read: two configurations that differ in it only give
    the same pipeline. *)
Lemma askQuestion_ignores_maxRetries
    (number_toString : Js.number -> string) (minConfidence : Js.number) (dryRun : bool)
    (retries retries' : nat) (textToSql : TextToSqlService) (postgres : PostgresService)
    (question : string) :
  QueryPipelineLive.askQuestion number_toString
    {| QueryPipeline.minConfidence := minConfidence;
       QueryPipeline.dryRun := dryRun;
       QueryPipeline.maxRetries := retries |} textToSql postgres question
  = QueryPipelineLive.askQuestion number_toString
      {| QueryPipeline.minConfidence := minConfidence;
         QueryPipeline.dryRun := dryRun;
         QueryPipeline.maxRetries := retries' |} textToSql postgres question.
Proof. reflexivity. Qed.

(** With a PostgresService whose `query` throws when called, validateSql
    returns [false] without any call to the outside world. *)
Lemma validateSql_false_witness :
  Effect.run Examples.quiet
    (QueryPipelineLive.validateSql Samples.without_query "SELECT * FROM orders") tt
  = (Effect.Success false, [], tt).
Proof.
  rewrite (@validateSql_follows_explain unit Examples.quiet Samples.without_query
             "SELECT * FROM orders" tt).
  reflexivity.
Defined.

(** With that PostgresService, a candidate that passes the confidence gate
    is rejected as invalid. *)
Example askQuestion_invalid_when_query_throws :
  Effect.exit_of
    (Effect.run (Examples.answering Examples.all_orders)
       (QueryPipelineLive.askQuestion Examples.number_toString (Examples.config_0_7 false)
          Double.textToSql Samples.without_query "Show me all orders") tt)
  = Effect.Failure
      (QueryPipeline.QueryPipelineError "Generated SQL is invalid: SELECT * FROM orders" None).
Proof. reflexivity. Qed.

Lemma askQuestion_executes_witness :
  QueryPipeline.dryRun (Examples.config_0_7 false) = false.
Proof.
  destruct (@askQuestion_executes_only_validated_sql Examples.number_toString
              (Examples.config_0_7 false) unit (Examples.answering Examples.all_orders) tt
              "Show me all orders" "SELECT * FROM orders" (inr [])) as [Hdry _].
  - right. right. left. reflexivity.
  - exact Hdry.
Defined.

Lemma askQuestion_result_witness :
  exists candidate plan started finished,
    {| QueryPipeline.question := "Show me all orders";
       QueryPipeline.sql := "SELECT * FROM orders";
       QueryPipeline.confidence := Examples.n_0_85;
       QueryPipeline.explanation := "Gets all orders from the orders table";
       QueryPipeline.results := [];
       QueryPipeline.executionTime := 0%Z |}
    = {| QueryPipeline.question := "Show me all orders";
         QueryPipeline.sql := TextToSql.sql candidate;
         QueryPipeline.confidence := TextToSql.confidence candidate;
         QueryPipeline.explanation := TextToSql.explanation candidate;
         QueryPipeline.results := [];
         QueryPipeline.executionTime := (finished - started)%Z |} /\
    Trace.pipeline_calls
      (Effect.trace_of
         (Effect.run (Examples.answering Examples.all_orders)
            (Double.askQuestion Examples.number_toString (Examples.config_0_7 false)
               "Show me all orders") tt))
    = [Trace.GenerateSql "Show me all orders" (inr candidate);
       Trace.Query ("EXPLAIN " +:+ TextToSql.sql candidate) None (inr plan);
       Trace.ExecuteQuery (TextToSql.sql candidate) (inr [])].
Proof.
  destruct (@askQuestion_result Examples.number_toString (Examples.config_0_7 false)
              unit (Examples.answering Examples.all_orders) tt "Show me all orders"
              {| QueryPipeline.question := "Show me all orders";
                 QueryPipeline.sql := "SELECT * FROM orders";
                 QueryPipeline.confidence := Examples.n_0_85;
                 QueryPipeline.explanation := "Gets all orders from the orders table";
                 QueryPipeline.results := [];
                 QueryPipeline.executionTime := 0%Z |})
    as (candidate & plan & started & finished & Hqr & _ & _ & Hcalls & _).
  - reflexivity.
  - exists candidate, plan, started, finished. split; [exact Hqr | exact Hcalls].
Defined.

End PipelineExtra.

(** ** More on the training orchestrator *)

Module TrainingExtra.
Section Training.

Context {W : Type} (env : Effect.Env W).

Lemma created_tables_ok (tables : list (string * string)) :
  Trace.collect (fun c => match c with
                          | Trace.CreateCollection n _ => Some n
                          | _ => None
                          end) (Trace.tables_ok tables) = [].
Proof. induction tables as [| [t d] l IH]; simpl; auto. Qed.

(** A successful trainFromDatabase has discovered the tables, created the
    collection at size 1536, and then, table after table in discovery
    order, asked for the table's DDL and handed exactly that DDL to
    trainFromSchema. *)
Theorem trainFromDatabase_trains_described_ddl (w : W) :
  let r := Effect.run env Double.trainFromDatabase w in
  Effect.exit_of r = Effect.Success tt ->
  exists tables ddls,
    length ddls = length tables /\
    Trace.train_calls (Effect.trace_of r) =
      Trace.GetSchema (inr tables) :: Trace.CreateCollection 1536 (inr tt)
      :: Trace.tables_ok (zip tables ddls).
Proof.
  cbv zeta. intros Hok.
  destruct (TrainingFacts.trainFromDatabase_shape env w)
    as [(c & Hex & _)
       | [(ts & c & Hex & _)
         | [(ts & ds & _ & Hlen & Hcalls)
           | [(ts & i & t & ds & c & _ & _ & Hex & _)
             | (ts & i & t & ds & d & c & _ & _ & Hex & _)]]]];
    try (rewrite Hex in Hok; discriminate Hok).
  exists ts, ds. auto.
Qed.

(** trainFromDdlArray on the empty list still creates the collection: that
    is its only service call, and the run succeeds exactly when the
    creation succeeds.  The calls of the run are given in full: a log
    line, the creation and, when it succeeded, a last log line. *)
Theorem trainFromDdlArray_empty (w : W) :
  let r := Effect.run env (Double.trainFromDdlArray []) w in
  exists reply,
    Trace.train_calls (Effect.trace_of r) = [Trace.CreateCollection 1536 reply] /\
    Effect.exit_of r =
      match reply with
      | inr _ => Effect.Success tt
      | inl cause =>
          Effect.Failure
            (Train.TrainingError ("Failed to create collection: " +:+ Js.toString cause)
                                 (Some cause))
      end /\
    Effect.trace_of r =
      Effect.Ev (Effect_log "Training from 0 DDL statements...") tt
      :: Effect.Ev (qdrant_createCollection 1536) reply
      :: match reply with
         | inr _ => [Effect.Ev (Effect_log "DDL array training completed") tt]
         | inl _ => []
         end.
Proof.
  cbv zeta. unfold Double.trainFromDdlArray, TrainingLive.trainFromDdlArray.
  unfold Effect.exit_of, Effect.trace_of.
  simpl. step as []. step as [cause | []].
  - exists (inl cause). auto.
  - step as []. exists (inr tt). auto.
Qed.

(** In every run of trainFromDatabase the collection is created at most
    once, at size 1536, and only after schema discovery has succeeded. *)
Theorem trainFromDatabase_creates_after_discovery (w : W) :
  let calls :=
    Trace.train_calls (Effect.trace_of (Effect.run env Double.trainFromDatabase w)) in
  (exists cause, calls = [Trace.GetSchema (inl cause)] /\ Trace.created calls = []) \/
  (exists tables reply rest,
     calls = Trace.GetSchema (inr tables) :: Trace.CreateCollection 1536 reply :: rest /\
     Trace.created calls = [1536]).
Proof.
  cbv zeta.
  destruct (TrainingFacts.trainFromDatabase_shape env w)
    as [(c & _ & ->)
       | [(ts & c & _ & ->)
         | [(ts & ds & _ & _ & ->)
           | [(ts & i & t & ds & c & _ & _ & _ & ->)
             | (ts & i & t & ds & d & c & _ & _ & _ & ->)]]]].
  - left. eauto.
  - right. exists ts, (inl c), []. auto.
  - right. exists ts, (inr tt), (Trace.tables_ok (zip ts ds)).
    split; [reflexivity |]. unfold Trace.created. simpl.
    rewrite created_tables_ok. reflexivity.
  - right. eexists ts, (inr tt), _. split; [reflexivity |].
    unfold Trace.created. simpl. rewrite collect_app, created_tables_ok. reflexivity.
  - right. eexists ts, (inr tt), _. split; [reflexivity |].
    unfold Trace.created. simpl. rewrite collect_app, created_tables_ok. reflexivity.
Qed.

End Training.

(** In an environment whose replies do not depend on what happened before,
    trainFromDdl on a string and trainFromDdlArray on the one-element list of
    that string make the same service calls, with the same replies, and end
    the same way.  Their log lines apart, the two runs make the same calls
    altogether. *)
Theorem trainFromDdl_is_singleton_batch
    (reply : forall X : Type, Call X -> X) (ddl : string) :
  let one := Effect.run (World.stateless reply) (Double.trainFromDdl ddl) tt in
  let batch := Effect.run (World.stateless reply) (Double.trainFromDdlArray [ddl]) tt in
  Effect.exit_of one = Effect.exit_of batch /\
  Trace.train_calls (Effect.trace_of one) = Trace.train_calls (Effect.trace_of batch) /\
  Observe.unlogged (Effect.trace_of one) = Observe.unlogged (Effect.trace_of batch).
Proof.
  cbv zeta.
  unfold Double.trainFromDdl, Double.trainFromDdlArray, TrainingLive.trainFromDdl,
    TrainingLive.trainFromDdlArray, Effect.exit_of, Effect.trace_of, World.stateless.
  simpl.
  destruct (reply _ (qdrant_createCollection 1536)) as [c | []]; simpl; [auto |].
  destruct (reply _ (textToSql_trainFromSchema ddl)) as [c | []]; simpl; auto.
Qed.

Lemma trainFromDatabase_no_tables_witness :
  Effect.exit_of (Effect.run Examples.quiet Double.trainFromDatabase tt) = Effect.Success tt /\
  Trace.train_calls (Effect.trace_of (Effect.run Examples.quiet Double.trainFromDatabase tt))
  = [Trace.GetSchema (inr []); Trace.CreateCollection 1536 (inr tt)] /\
  Effect.trace_of (Effect.run Examples.quiet Double.trainFromDatabase tt)
  = [Effect.Ev (Effect_log "Starting database schema training...") tt;
     Effect.Ev postgres_getSchema (inr []);
     Effect.Ev (Effect_log "Found 0 tables to train on") tt;
     Effect.Ev (qdrant_createCollection 1536) (inr tt);
     Effect.Ev (Effect_log "Database schema training completed") tt].
Proof.
  apply (@TrainingFacts.trainFromDatabase_no_tables unit Examples.quiet tt).
  - left. reflexivity.
  - right. left. reflexivity.
Defined.

Lemma trainFromDatabase_trains_described_witness :
  exists tables ddls,
    length ddls = length tables /\
    Trace.train_calls
      (Effect.trace_of (Effect.run Examples.two_tables Double.trainFromDatabase tt))
    = Trace.GetSchema (inr tables) :: Trace.CreateCollection 1536 (inr tt)
      :: Trace.tables_ok (zip tables ddls).
Proof.
  apply (@trainFromDatabase_trains_described_ddl unit Examples.two_tables tt).
  reflexivity.
Defined.

End TrainingExtra.

(** ** More on the Vector Index adapter *)

Module QdrantExtra.
Section Qdrant.

Variable config : Qdrant.QdrantConfig.

Lemma named_after_append (listed : list Qdrant.CollectionDescription) (n : nat) :
  existsb (fun col => String.eqb (Qdrant.name col) (Qdrant.collectionName config))
    (listed ++ [ {| Qdrant.name := Qdrant.collectionName config; Qdrant.size := n |} ])
  = true.
Proof.
  rewrite existsb_app. simpl. rewrite String.eqb_refl, orb_true_r. reflexivity.
Qed.

Lemma not_named_after_filter (listed : list Qdrant.CollectionDescription) :
  existsb (fun col => String.eqb (Qdrant.name col) (Qdrant.collectionName config))
    (List.filter
       (fun c => negb (String.eqb (Qdrant.name c) (Qdrant.collectionName config))) listed)
  = false.
Proof.
  induction listed as [| c l IH]; simpl; [reflexivity |].
  destruct (String.eqb (Qdrant.name c) (Qdrant.collectionName config)) eqn:Hc; simpl;
    [exact IH | rewrite Hc; exact IH].
Qed.

Lemma named_filter_of_others (listed : list Qdrant.CollectionDescription) :
  List.filter
    (fun c => String.eqb (Qdrant.name c) (Qdrant.collectionName config))
    (List.filter
       (fun c => negb (String.eqb (Qdrant.name c) (Qdrant.collectionName config))) listed)
  = [].
Proof.
  induction listed as [| c l IH]; simpl; [reflexivity |].
  destruct (String.eqb (Qdrant.name c) (Qdrant.collectionName config)) eqn:Hc; simpl;
    [exact IH | rewrite Hc; exact IH].
Qed.

Section AnyEnvironment.
Context {W : Type} (env : Effect.Env W).

(** The requests of createCollection, in every environment: it lists the
    collections; if the listing fails it fails with a QdrantError that
    wraps the reason; if the configured name is listed it stops there;
    otherwise it asks for the creation of a collection with the
    configured name, the requested size and the cosine distance, and
    succeeds exactly when that request does. *)
Theorem createCollection_requests (vectorSize : nat) (w : W) :
  let r := Effect.run env (QdrantLive.createCollection config vectorSize) w in
  let named := fun listed =>
    existsb (fun col => String.eqb (Qdrant.name col) (Qdrant.collectionName config))
            listed in
  (exists error,
     Effect.trace_of r = [Effect.Ev client_getCollections (inl error)] /\
     Effect.exit_of r =
       Effect.Failure
         (Qdrant.QdrantError ("Failed to create collection: " +:+ Js.toString error)
                             (Some error))) \/
  (exists listed,
     named listed = true /\
     Effect.trace_of r = [Effect.Ev client_getCollections (inr listed)] /\
     Effect.exit_of r = Effect.Success tt) \/
  (exists listed reply,
     named listed = false /\
     Effect.trace_of r =
       [Effect.Ev client_getCollections (inr listed);
        Effect.Ev (client_createCollection (Qdrant.collectionName config)
                     vectorSize "Cosine") reply] /\
     Effect.exit_of r =
       match reply with
       | inr _ => Effect.Success tt
       | inl error =>
           Effect.Failure
             (Qdrant.QdrantError ("Failed to create collection: " +:+ Js.toString error)
                                 (Some error))
       end).
Proof.
  cbv zeta. unfold QdrantLive.createCollection, Effect.tryPromise.
  unfold Effect.exit_of, Effect.trace_of.
  simpl. step as [error | listed].
  { left. eauto. }
  destruct (existsb _ listed) eqn:Hnamed; simpl.
  { right. left. eauto. }
  step as [error | []]; right; right; eexists listed, _; eauto.
Qed.

(** Whatever the environment, search sends exactly one search request to
    the configured collection: for the vector given, for 10 records when
    no limit is given, with payload, and with the filter given if it is
    truthy; a filter that is `null`, `false`, `0`, `NaN`, the empty string
    or `undefined` is left out, as if none had been given.  It returns the
    records of the reply as they are and in their order, and fails
    exactly when the request is rejected. *)
Theorem search_one_request (vector : list Js.number) (limit : option nat)
    (filter : option Js.Value) (w : W) :
  let r := Effect.run env (QdrantLive.search config vector limit filter) w in
  exists reply,
    Effect.trace_of r =
      [Effect.Ev
         (client_search (Qdrant.collectionName config)
            {| Qdrant.sp_vector := vector;
               Qdrant.sp_limit := match limit with Some n => n | None => 10 end;
               Qdrant.sp_with_payload := true;
               Qdrant.sp_filter :=
                 match filter with
                 | Some (Js.Undefined | Js.Null | Js.Bool false
                        | Js.Number (S754_zero _ | S754_nan) | Js.Str EmptyString) => None
                 | _ => filter
                 end |})
         reply] /\
    Effect.exit_of r =
      match reply with
      | inl error =>
          Effect.Failure
            (Qdrant.QdrantError ("Search failed: " +:+ Js.toString error) (Some error))
      | inr records => Effect.Success records
      end.
Proof.
  cbv zeta. unfold QdrantLive.search, Effect.tryPromise.
  unfold Effect.exit_of, Effect.trace_of.
  destruct limit as [n |];
    (destruct filter as [[| | [|] | [s | s | | s m e] | [| a s] | items | fields] |]);
    simpl;
    step as [error | records];
    eexists; (split; [reflexivity |]); simpl; rewrite ?QdrantFacts.copy_records;
    reflexivity.
Qed.

End AnyEnvironment.

(** Against a MockQdrantClient in any state, createCollection is
    idempotent: after one call the configured name is listed, and a second
    call, whatever size it asks for, succeeds and leaves the client as the
    first call left it. *)
Theorem createCollection_idempotent_on_mock
    (vectorSize vectorSize' : nat) (self : World.MockQdrantClient) :
  let once :=
    Effect.run World.mockQdrantClient (QdrantLive.createCollection config vectorSize) self in
  let twice :=
    Effect.run World.mockQdrantClient
      (Effect.bind (QdrantLive.createCollection config vectorSize) (fun _ =>
       QdrantLive.createCollection config vectorSize')) self in
  Effect.exit_of once = Effect.Success tt /\
  Effect.exit_of twice = Effect.Success tt /\
  Effect.world_of twice = Effect.world_of once /\
  existsb (fun col => String.eqb (Qdrant.name col) (Qdrant.collectionName config))
          (World.collections (Effect.world_of once)) = true.
Proof.
  cbv zeta. unfold QdrantLive.createCollection, Effect.tryPromise.
  unfold Effect.exit_of, Effect.world_of. simpl.
  destruct (existsb _ (World.collections self)) eqn:Hnamed; simpl.
  - rewrite Hnamed. simpl. auto.
  - rewrite named_after_append. simpl. auto.
Qed.

(** Against a MockQdrantClient in any state, the records handed to
    upsertVectors are appended to the collection, and a search then returns
    the records of the collection in that order, the earlier ones first,
    cut at the limit (at 10 when no limit or the limit 0 is given). *)
Theorem upsert_then_search_on_mock
    (records : list Qdrant.VectorRecord) (vector : list Js.number)
    (limit : option nat) (filter : option Js.Value) (self : World.MockQdrantClient) :
  let r :=
    Effect.run World.mockQdrantClient
      (Effect.bind (QdrantLive.upsertVectors config records) (fun _ =>
       QdrantLive.search config vector limit filter)) self in
  Effect.exit_of r =
    Effect.Success
      (take (match default 10 limit with 0 => 10 | l => l end)
            (default [] (World.vectors self !! Qdrant.collectionName config) ++ records)).
Proof.
  cbv zeta. unfold QdrantLive.upsertVectors, QdrantLive.search, Effect.tryPromise.
  rewrite QdrantFacts.copy_records.
  unfold Effect.exit_of.
  destruct filter as [f |]; [destruct (JsOps.truthy f) |]; simpl;
    rewrite lookup_insert_eq; simpl; rewrite QdrantFacts.copy_records;
    destruct (default 10 limit); reflexivity.
Qed.

(** Against a MockQdrantClient in any state, deleteCollection followed by
    createCollection is a full reset of the configured collection: it is
    listed once, with the requested size, and holds no record; the records
    of the other collections are untouched. *)
Theorem delete_then_create_resets_on_mock
    (vectorSize : nat) (self : World.MockQdrantClient) :
  let r :=
    Effect.run World.mockQdrantClient
      (Effect.bind (QdrantLive.deleteCollection config) (fun _ =>
       QdrantLive.createCollection config vectorSize)) self in
  let after := Effect.world_of r in
  Effect.exit_of r = Effect.Success tt /\
  List.filter (fun c => String.eqb (Qdrant.name c) (Qdrant.collectionName config))
              (World.collections after)
  = [ {| Qdrant.name := Qdrant.collectionName config; Qdrant.size := vectorSize |} ] /\
  World.vectors after !! Qdrant.collectionName config = Some [] /\
  (forall other,
     other <> Qdrant.collectionName config ->
     World.vectors after !! other = World.vectors self !! other).
Proof.
  cbv zeta. unfold QdrantLive.deleteCollection, QdrantLive.createCollection,
    Effect.tryPromise.
  unfold Effect.exit_of, Effect.world_of. simpl.
  rewrite not_named_after_filter. simpl.
  split; [reflexivity |]. split; [| split].
  - rewrite List.filter_app, named_filter_of_others. simpl.
    rewrite String.eqb_refl. reflexivity.
  - apply lookup_insert_eq.
  - intros other Hother.
    rewrite lookup_insert_ne, lookup_delete_ne; auto.
Qed.

End Qdrant.

Lemma delete_then_create_resets_witness :
  World.vectors
    (Effect.world_of
       (Effect.run World.mockQdrantClient
          (Effect.bind (QdrantLive.deleteCollection Examples.mockQdrantConfig) (fun _ =>
           QdrantLive.createCollection Examples.mockQdrantConfig 1536))
          Examples.test_collection_1536))
  !! "other_collection"
  = World.vectors Examples.test_collection_1536 !! "other_collection".
Proof.
  apply (@delete_then_create_resets_on_mock Examples.mockQdrantConfig 1536
           Examples.test_collection_1536).
  intros H. discriminate H.
Defined.

End QdrantExtra.

(** ** More on the Generation Service, provided with the Vector Index adapter *)

Module TextToSqlExtra.
Section Generation.

Variable JSON_parse : string -> Js.Error + Js.Value.
Variable textToSql : TextToSql.TextToSqlConfig.
Variable qdrant : Qdrant.QdrantConfig.

Context {W : Type} (env : Effect.Env W).

(** The requests of generateSql, provided with QdrantLive, in every
    environment.  It embeds the question; it searches the configured
    collection with that embedding for 5 records, with payload and without
    filter; it asks for one completion of the prompt made of the contents
    of the records found, joined by blank lines, and of the question, with
    1000 tokens and the temperature 0.1 unless the configuration says
    otherwise.  A failure of one of the three requests ends the run with a
    TextToSqlError that names the stage and wraps the reason; once the
    completion is there, the run is never a defect. *)
Theorem generateSql_requests (question : string) (w : W) :
  let r :=
    Effect.run env
      (TextToSqlLive.generateSql JSON_parse textToSql (QdrantLive.make qdrant) question) w in
  let embed_ := ai_embed (TextToSql.embeddingModel textToSql) question in
  let search_ := fun embedding =>
    client_search (Qdrant.collectionName qdrant)
      {| Qdrant.sp_vector := embedding;
         Qdrant.sp_limit := 5;
         Qdrant.sp_with_payload := true;
         Qdrant.sp_filter := None |} in
  let generateText_ := fun similar : list Qdrant.VectorRecord =>
    ai_generateText (TextToSql.model textToSql)
      (TextToSqlLive.prompt_of
         (String.concat (TextToSqlLive.nl +:+ TextToSqlLive.nl)
            (List.map (fun record => Qdrant.content (Qdrant.payload record)) similar))
         question)
      (default 1000 (TextToSql.maxTokens textToSql))
      (default TextToSqlLive.temperature_default (TextToSql.temperature textToSql)) in
  (exists error,
     Effect.trace_of r = [Effect.Ev embed_ (inl error)] /\
     Effect.exit_of r =
       Effect.Failure
         (TextToSql.TextToSqlError
            ("Failed to generate embedding: " +:+ Js.toString error) (Some error))) \/
  (exists embedding error,
     Effect.trace_of r =
       [Effect.Ev embed_ (inr embedding); Effect.Ev (search_ embedding) (inl error)] /\
     Effect.exit_of r =
       Effect.Failure
         (TextToSql.TextToSqlError
            ("Vector search failed: QdrantError: Search failed: " +:+ Js.toString error)
            (Some (Qdrant.QdrantError ("Search failed: " +:+ Js.toString error)
                                      (Some error))))) \/
  (exists embedding similar reply,
     Effect.trace_of r =
       [Effect.Ev embed_ (inr embedding);
        Effect.Ev (search_ embedding) (inr similar);
        Effect.Ev (generateText_ similar) reply] /\
     match reply with
     | inl error =>
         Effect.exit_of r =
           Effect.Failure
             (TextToSql.TextToSqlError
                ("SQL generation failed: " +:+ Js.toString error) (Some error))
     | inr _ => forall defect, Effect.exit_of r <> Effect.Defect defect
     end).
Proof.
  cbv zeta. unfold TextToSqlLive.generateSql, Effect.tryPromise.
  unfold Effect.exit_of, Effect.trace_of.
  simpl. step as [error | embedding].
  { left. eauto. }
  step as [error | similar].
  { right. left. exists embedding, error. split; reflexivity. }
  rewrite QdrantFacts.copy_records.
  step as [error | completion].
  { right. right. exists embedding, similar, (inl error). split; reflexivity. }
  destruct (JSON_parse completion) as [x | parsed]; simpl;
    [| destruct parsed; simpl];
    right; right; exists embedding, similar, (inr completion);
    (split; [reflexivity | intros defect; discriminate]).
Qed.

(** The requests of trainFromSchema, provided with QdrantLive, in every
    environment.  It embeds the DDL string and stops there when that
    fails, before any id is drawn.  Otherwise it draws a UUID, reads the
    clock, and sends one upsert request for one record: the UUID, the
    embedding, the DDL string as content, and the type `schema` with the
    time read as metadata.  It succeeds exactly when that request does; a
    rejection comes back as a TextToSqlError around a QdrantError around
    the reason. *)
Theorem trainFromSchema_outcomes (ddl : string) (w : W) :
  let r := Effect.run env (SqlGen.trainFromSchema textToSql qdrant ddl) w in
  let embed_ := ai_embed (TextToSql.embeddingModel textToSql) ddl in
  (exists error,
     Effect.trace_of r = [Effect.Ev embed_ (inl error)] /\
     Effect.exit_of r =
       Effect.Failure
         (TextToSql.TextToSqlError
            ("Failed to generate embedding: " +:+ Js.toString error) (Some error))) \/
  (exists embedding uuid timestamp reply,
     Effect.trace_of r =
       [Effect.Ev embed_ (inr embedding);
        Effect.Ev crypto_randomUUID uuid;
        Effect.Ev Date_toISOString timestamp;
        Effect.Ev
          (client_upsert (Qdrant.collectionName qdrant) true
             [ {| Qdrant.id := uuid;
                  Qdrant.vector := embedding;
                  Qdrant.payload :=
                    {| Qdrant.content := ddl;
                       Qdrant.metadata :=
                         Some [ ("type", Js.Str "schema");
                                ("timestamp", Js.Str timestamp) ] |} |} ])
          reply] /\
     Effect.exit_of r =
       match reply with
       | inr _ => Effect.Success tt
       | inl error =>
           Effect.Failure
             (TextToSql.TextToSqlError
                ("Failed to store schema: QdrantError: Failed to upsert vectors: "
                 +:+ Js.toString error)
                (Some (Qdrant.QdrantError
                         ("Failed to upsert vectors: " +:+ Js.toString error)
                         (Some error))))
       end).
Proof.
  cbv zeta. unfold SqlGen.trainFromSchema, TextToSqlLive.trainFromSchema.
  unfold Effect.exit_of, Effect.trace_of. simpl.
  step as [error | embedding].
  { left. eauto. }
  step as uuid. step as timestamp. step as [error | []];
    right; exists embedding, uuid, timestamp; eexists; split; reflexivity.
Qed.

End Generation.
End TextToSqlExtra.

(** ** The Schema Store adapter (src/providers/postgres.ts) *)

Module PostgresFacts.
Section Postgres.

Variable number_toString : Js.number -> string.
Variable pool : PostgresLive.Pool.

Context {W : Type} (env : Effect.Env W).

Lemma column_of_row (c : Catalog.Column) :
  Catalog.column_default c <> Some EmptyString ->
  PostgresLive.column_of number_toString (Catalog.row_of c) = inr (Catalog.definition_of c).
Proof.
  destruct c as [name type nullable [d |]]; unfold Catalog.definition_of; simpl; intros Hd.
  - destruct d as [| a d]; [congruence |].
    destruct nullable; reflexivity.
  - destruct nullable; reflexivity.
Qed.

Lemma columns_of_rows (columns : list Catalog.Column) :
  Forall (fun c => Catalog.column_default c <> Some EmptyString) columns ->
  JsOps.array_map (PostgresLive.column_of number_toString)
    (List.map Catalog.row_of columns)
  = inr (List.map Catalog.definition_of columns).
Proof.
  induction 1 as [| c rest Hc _ IH]; [reflexivity |].
  cbn [List.map JsOps.array_map]. rewrite column_of_row, IH by exact Hc. reflexivity.
Qed.

Lemma table_names_of_rows (names : list string) :
  JsOps.array_map (fun row => Js.get row "table_name")
    (List.map Catalog.table_row names)
  = inr (List.map Js.Str names).
Proof.
  induction names as [| n rest IH]; [reflexivity |].
  cbn [List.map JsOps.array_map]. rewrite IH. reflexivity.
Qed.

(** When the catalog describes the columns of a table, getTableSchema
    answers with `CREATE TABLE`, the table name and, between parentheses
    and separated by a comma and a space, one definition per column in
    the order of the rows: the name, the type, `NOT NULL` unless the
    column is nullable, and `DEFAULT` with the default when there is
    one.  It makes the calls of that one query and no other.  For a table
    the catalog does not know the list is empty and the answer is
    `CREATE TABLE t ()`, not a failure. *)
Theorem getTableSchema_renders_columns
    (tableName : string) (columns : list Catalog.Column)
    (w w' : W) (tr : list Effect.Event) :
  Forall (fun c => Catalog.column_default c <> Some EmptyString) columns ->
  Effect.run env
    (PostgresLive.pool_query pool PostgresLive.columns_sql (Some [Js.Str tableName])) w
  = (Effect.Success {| Postgres.rows := List.map Catalog.row_of columns |}, tr, w') ->
  Effect.run env (PostgresLive.getTableSchema number_toString pool tableName) w
  = (Effect.Success
       ("CREATE TABLE " +:+ tableName +:+ " ("
        +:+ String.concat ", " (List.map Catalog.definition_of columns) +:+ ")"),
     tr, w').
Proof.
  intros Hdefaults Hquery.
  unfold PostgresLive.getTableSchema, PostgresLive.query, Effect.tryPromise,
    Effect.gen, Effect.seq, Effect.yield, Effect.map, Effect.eval, Effect.ret.
  rewrite !run_bind, run_mapError, Hquery. simpl.
  rewrite columns_of_rows by exact Hdefaults. simpl.
  rewrite !app_nil_r. reflexivity.
Qed.

(** A column whose default is the empty string is written without
    `DEFAULT`: the empty string counts as no default. *)
Lemma column_of_empty_default (name type : string) (nullable : bool) :
  PostgresLive.column_of number_toString
    (Catalog.row_of {| Catalog.column_name := name; Catalog.data_type := type;
                       Catalog.is_nullable := nullable;
                       Catalog.column_default := Some EmptyString |})
  = PostgresLive.column_of number_toString
      (Catalog.row_of {| Catalog.column_name := name; Catalog.data_type := type;
                         Catalog.is_nullable := nullable;
                         Catalog.column_default := None |}).
Proof. reflexivity. Qed.

(** When the catalog lists the tables, getSchema answers with their
    names, in the order of the rows, after the calls of that one query. *)
Theorem getSchema_lists_table_names
    (names : list string) (w w' : W) (tr : list Effect.Event) :
  Effect.run env (PostgresLive.pool_query pool PostgresLive.tables_sql None) w
  = (Effect.Success {| Postgres.rows := List.map Catalog.table_row names |}, tr, w') ->
  Effect.run env (PostgresLive.getSchema pool) w
  = (Effect.Success (List.map Js.Str names), tr, w').
Proof.
  intros Hquery.
  unfold PostgresLive.getSchema, PostgresLive.query, Effect.tryPromise,
    Effect.gen, Effect.seq, Effect.yield, Effect.map, Effect.eval, Effect.ret.
  rewrite !run_bind, run_mapError, Hquery. simpl.
  rewrite table_names_of_rows. simpl.
  rewrite !app_nil_r. reflexivity.
Qed.

End Postgres.

Section Recorded.

Variable number_toString : Js.number -> string.

(** The table name never becomes part of the statement: whatever the
    table, getTableSchema sends the same text, with the name as its single
    parameter. *)
Theorem getTableSchema_binds_table_name :
  exists sql : string,
    forall (W : Type) (env : Effect.Env W) (tableName : string) (w : W),
    exists reply,
      Trace.pipeline_calls
        (Effect.trace_of
           (Effect.run env
              (PostgresLive.getTableSchema number_toString Catalog.recorded tableName) w))
      = [Trace.Query sql (Some [Js.Str tableName]) reply].
Proof.
  exists PostgresLive.columns_sql. intros W env tableName w.
  unfold PostgresLive.getTableSchema, PostgresLive.query, Effect.tryPromise.
  unfold Effect.trace_of. cbn -[PostgresLive.columns_sql].
  step as [error | result].
  { eexists. reflexivity. }
  cbn -[PostgresLive.columns_sql].
  destruct (JsOps.array_map _ _); cbn -[PostgresLive.columns_sql]; eexists; reflexivity.
Qed.

End Recorded.

Lemma getTableSchema_renders_witness :
  Effect.run Catalog.describing_users
    (PostgresLive.getTableSchema Examples.number_toString Catalog.recorded "users") tt
  = (Effect.Success
       ("CREATE TABLE users (id integer NOT NULL DEFAULT nextval('users_id_seq'::regclass), "
        +:+ "name character varying NOT NULL, "
        +:+ "created_at timestamp without time zone DEFAULT CURRENT_TIMESTAMP)"),
     [Effect.Ev (postgres_query PostgresLive.columns_sql (Some [Js.Str "users"]))
                (inr {| Postgres.rows := List.map Catalog.row_of Catalog.users_columns |})],
     tt).
Proof.
  apply (@getTableSchema_renders_columns Examples.number_toString Catalog.recorded unit
           Catalog.describing_users "users" Catalog.users_columns tt tt).
  - repeat constructor; discriminate.
  - reflexivity.
Defined.

Lemma getSchema_lists_witness :
  Effect.run Catalog.listing_tables (PostgresLive.getSchema Catalog.recorded) tt
  = (Effect.Success [Js.Str "users"; Js.Str "orders"],
     [Effect.Ev (postgres_query PostgresLive.tables_sql None)
                (inr {| Postgres.rows := List.map Catalog.table_row ["users"; "orders"] |})],
     tt).
Proof.
  apply (@getSchema_lists_table_names Catalog.recorded unit Catalog.listing_tables
           ["users"; "orders"] tt tt).
  reflexivity.
Defined.

End PostgresFacts.

(** ** The services provided with the live adapters (src/index.ts) *)

Module LayerFacts.
Section ThroughPostgres.

Variable pool : PostgresLive.Pool.

Context {W : Type} (env : Effect.Env W).

(** Provided with the query of PostgresLive, validateSql, explainQuery
    and executeQuery each run the one statement on the pool, with the same
    calls and the same final state, and nothing else.  A rejection by the
    pool comes back wrapped twice: the error of the service, whose message
    quotes the PostgresError, whose message quotes the reason; each is the
    cause of the one around it. *)
Theorem queries_through_live_postgres (postgres : PostgresService) (sql : string) (w : W) :
  query postgres = (fun sql params => inr (PostgresLive.query pool sql params)) ->
  let twice := fun (service : string -> option Js.Error -> Js.Error)
                   (stage : string) (reason : Js.Error) =>
    service (stage +:+ ": PostgresError: Query failed: " +:+ Js.toString reason)
            (Some (Postgres.PostgresError ("Query failed: " +:+ Js.toString reason)
                                          (Some reason))) in
  Effect.run env (QueryPipelineLive.validateSql postgres sql) w =
    match Effect.run env (PostgresLive.pool_query pool ("EXPLAIN " +:+ sql) None) w with
    | (Effect.Success _, tr, w') => (Effect.Success true, tr, w')
    | (Effect.Failure reason, tr, w') =>
        (Effect.Failure
           (twice QueryPipeline.QueryPipelineError "SQL validation failed" reason),
         tr, w')
    | (Effect.Defect d, tr, w') => (Effect.Defect d, tr, w')
    end /\
  Effect.run env (QueryPipelineLive.explainQuery postgres sql) w =
    match Effect.run env
            (PostgresLive.pool_query pool ("EXPLAIN ANALYZE " +:+ sql) None) w with
    | (Effect.Success result, tr, w') => (Effect.Success (Postgres.rows result), tr, w')
    | (Effect.Failure reason, tr, w') =>
        (Effect.Failure
           (twice QueryPipeline.QueryPipelineError "Query explanation failed" reason),
         tr, w')
    | (Effect.Defect d, tr, w') => (Effect.Defect d, tr, w')
    end /\
  Effect.run env (TextToSqlLive.executeQuery postgres sql) w =
    match Effect.run env (PostgresLive.pool_query pool sql None) w with
    | (Effect.Success result, tr, w') => (Effect.Success (Postgres.rows result), tr, w')
    | (Effect.Failure reason, tr, w') =>
        (Effect.Failure
           (twice TextToSql.TextToSqlError "Query execution failed" reason),
         tr, w')
    | (Effect.Defect d, tr, w') => (Effect.Defect d, tr, w')
    end.
Proof.
  intros Hquery. cbv zeta.
  unfold QueryPipelineLive.validateSql, QueryPipelineLive.explainQuery,
    TextToSqlLive.executeQuery, Effect.gen, Effect.try_catch, Effect.seq,
    Effect.yield, Effect.map, Effect.ret, Effect.eval.
  rewrite Hquery. cbn [Effect.bind]. unfold PostgresLive.query, Effect.tryPromise.
  rewrite !run_bind, !run_mapError.
  repeat split.
  - destruct (Effect.run env _ w) as [[[a | e | d] tr] w1]; simpl;
      rewrite ?app_nil_r; reflexivity.
  - destruct (Effect.run env _ w) as [[[a | e | d] tr] w1]; simpl;
      rewrite ?app_nil_r; reflexivity.
  - destruct (Effect.run env _ w) as [[[a | e | d] tr] w1]; simpl;
      rewrite ?app_nil_r; reflexivity.
Qed.

End ThroughPostgres.

Section ThroughQdrant.

Variable textToSql : TextToSql.TextToSqlConfig.
Variable qdrant : Qdrant.QdrantConfig.

(** One run of trainFromSchema against a MockQdrantClient appends one
    record that holds the DDL string to the configured collection. *)
Lemma trainFromSchema_on_mock (ddl : string) (self : World.MockQdrantClient) :
  exists tr record,
    Qdrant.content (Qdrant.payload record) = ddl /\
    Effect.run World.mockQdrantClient (SqlGen.trainFromSchema textToSql qdrant ddl) self
    = (Effect.Success tt, tr,
       {| World.collections := World.collections self;
          World.vectors :=
            <[Qdrant.collectionName qdrant :=
                default [] (World.vectors self !! Qdrant.collectionName qdrant)
                ++ [record]]> (World.vectors self) |}).
Proof. eexists _, _. split; [| reflexivity]. reflexivity. Qed.

(** One turn of the loop of trainFromDdlArray against a
    MockQdrantClient. *)
Lemma ddl_turn_on_mock (total : nat) (ddl : string) (index : nat)
    (self : World.MockQdrantClient) :
  exists tr record,
    Qdrant.content (Qdrant.payload record) = ddl /\
    Effect.run World.mockQdrantClient
      (Effect.gen (
         yield* (Effect.log
                   ("Training DDL " +:+ Js.nat_toString (index + 1) +:+ "/"
                    +:+ Js.nat_toString total)) ;;
         yield*
           (Effect.mapError
              (fun error =>
                 Train.TrainingError
                   ("Failed to train schema: " +:+ Js.toString error) (Some error))
              (SqlGen.trainFromSchema textToSql qdrant ddl)) ;;
         Effect.ret tt)) self
    = (Effect.Success tt, tr,
       {| World.collections := World.collections self;
          World.vectors :=
            <[Qdrant.collectionName qdrant :=
                default [] (World.vectors self !! Qdrant.collectionName qdrant)
                ++ [record]]> (World.vectors self) |}).
Proof. eexists _, _. split; [| reflexivity]. reflexivity. Qed.

(** The loop of trainFromDdlArray against a MockQdrantClient. *)
Lemma ddl_loop_on_mock (total : nat) (ddls : list string) (index : nat)
    (self : World.MockQdrantClient) :
  exists units tr self',
    Effect.run World.mockQdrantClient
      (Effect.forEach_from index ddls (fun ddl index =>
         Effect.gen (
           yield* (Effect.log
                     ("Training DDL " +:+ Js.nat_toString (index + 1) +:+ "/"
                      +:+ Js.nat_toString total)) ;;
           yield*
             (Effect.mapError
                (fun error =>
                   Train.TrainingError
                     ("Failed to train schema: " +:+ Js.toString error) (Some error))
                (SqlGen.trainFromSchema textToSql qdrant ddl)) ;;
           Effect.ret tt))) self
    = (Effect.Success units, tr, self') /\
    World.collections self' = World.collections self /\
    Observe.contents (Qdrant.collectionName qdrant) self'
    = Observe.contents (Qdrant.collectionName qdrant) self ++ ddls /\
    (forall other,
       other <> Qdrant.collectionName qdrant ->
       World.vectors self' !! other = World.vectors self !! other).
Proof.
  revert index self. induction ddls as [| ddl rest IH]; intros index self.
  - simpl. eexists _, _, _. split; [reflexivity |].
    rewrite app_nil_r. auto.
  - cbn [Effect.forEach_from]. rewrite run_bind.
    destruct (ddl_turn_on_mock total ddl index self) as (tr1 & record & Hcontent & ->).
    rewrite run_bind.
    match goal with
    | |- context [Effect.run _ (Effect.forEach_from _ _ _) ?s] =>
        destruct (IH (S index) s) as (units & tr & self' & -> & Hcols & Hcontents & Hothers)
    end.
    cbn [Effect.run]. eexists _, _, _. split; [reflexivity |].
    split; [exact Hcols |]. split.
    + rewrite Hcontents. unfold Observe.contents. cbn [World.vectors].
      rewrite lookup_insert_eq. cbn [default from_option id].
      rewrite List.map_app. cbn [List.map]. rewrite Hcontent, <- app_assoc. reflexivity.
    + intros other Hother. rewrite (Hothers other Hother). cbn [World.vectors].
      apply lookup_insert_ne. congruence.
Qed.

(** trainFromDdlArray, provided with QdrantLive and with the
    trainFromSchema of TextToSqlLive, against a MockQdrantClient in any
    state: it succeeds; the configured collection is listed afterwards,
    created with size 1536 if it was not listed; and the collection holds
    what it held before, or nothing if it was created, followed by one
    record per DDL string, in input order. *)
Theorem trainFromDdlArray_stores_every_ddl_on_mock
    (service : TextToSqlService) (ddls : list string) (self : World.MockQdrantClient) :
  trainFromSchema service = SqlGen.trainFromSchema textToSql qdrant ->
  let name := Qdrant.collectionName qdrant in
  let r :=
    Effect.run World.mockQdrantClient
      (TrainingLive.trainFromDdlArray (QdrantLive.make qdrant) service ddls) self in
  Effect.exit_of r = Effect.Success tt /\
  World.collections (Effect.world_of r) =
    (if Observe.listed name self then World.collections self
     else World.collections self ++ [ {| Qdrant.name := name; Qdrant.size := 1536 |} ]) /\
  Observe.contents name (Effect.world_of r) =
    (if Observe.listed name self then Observe.contents name self else []) ++ ddls.
Proof.
  intros Hservice. cbv zeta.
  unfold TrainingLive.trainFromDdlArray. rewrite Hservice.
  unfold Effect.gen, Effect.seq, Effect.yield, Effect.map, Effect.ret, Effect.log,
    Effect.forEach.
  rewrite !run_bind. cbn [Effect.run Effect.respond World.mockQdrantClient World.quiet].
  rewrite !run_bind, run_mapError.
  unfold createCollection, QdrantLive.make, QdrantLive.createCollection,
    Effect.tryPromise, Effect.await.
  rewrite run_mapError.
  cbn [Effect.run Effect.respond World.mockQdrantClient World.mock_getCollections
       Effect.bind].
  unfold Observe.listed.
  destruct (existsb _ (World.collections self)) eqn:Hlisted;
    cbn [negb Effect.run Effect.respond World.mockQdrantClient
         World.mock_createCollection Effect.bind];
    rewrite !run_bind;
    match goal with
    | |- context [Effect.run _ (Effect.forEach_from 0 ddls ?f) ?s] =>
        destruct (ddl_loop_on_mock (length ddls) ddls 0 s)
          as (units & tr & self' & Hrun & Hcols & Hcontents & _);
        change (Effect.run _ (Effect.forEach_from _ _ _) _)
          with (Effect.run World.mockQdrantClient (Effect.forEach_from 0 ddls f) s)
          in Hrun
    end;
    rewrite Hrun;
    cbn [Effect.run Effect.respond World.mockQdrantClient World.quiet
         Effect.exit_of Effect.world_of fst snd];
    (split; [reflexivity |]); (split; [exact Hcols |]);
    rewrite Hcontents; [reflexivity |].
  unfold Observe.contents. cbn [World.vectors].
  rewrite lookup_insert_eq. reflexivity.
Qed.

(** A rejected upsert request ends trainFromDdl with an error wrapped
    three times: a TrainingError whose cause is the TextToSqlError of
    trainFromSchema, whose cause is the QdrantError of upsertVectors,
    whose cause is the reason; the message of each quotes the one
    inside. *)
Theorem trainFromDdl_upsert_rejection_chain
    {W : Type} (env : Effect.Env W) (service : TextToSqlService) (ddl : string) (w : W)
    (points : list Qdrant.VectorRecord) (reason : Js.Error) :
  trainFromSchema service = SqlGen.trainFromSchema textToSql qdrant ->
  let r :=
    Effect.run env (TrainingLive.trainFromDdl (QdrantLive.make qdrant) service ddl) w in
  In (Trace.Upsert (Qdrant.collectionName qdrant) true points (inl reason))
     (Trace.client_calls (Effect.trace_of r)) ->
  let inner :=
    Qdrant.QdrantError ("Failed to upsert vectors: " +:+ Js.toString reason)
                       (Some reason) in
  let middle :=
    TextToSql.TextToSqlError
      ("Failed to store schema: QdrantError: Failed to upsert vectors: "
       +:+ Js.toString reason) (Some inner) in
  Effect.exit_of r =
    Effect.Failure
      (Train.TrainingError
         ("Failed to train schema: TextToSqlError: Failed to store schema: "
          +:+ "QdrantError: Failed to upsert vectors: " +:+ Js.toString reason)
         (Some middle)).
Proof.
  intros Hservice. cbv zeta.
  unfold TrainingLive.trainFromDdl. rewrite Hservice.
  unfold SqlGen.trainFromSchema, TextToSqlLive.trainFromSchema.
  unfold Effect.exit_of, Effect.trace_of, Trace.client_calls. simpl.
  step. step as [error | listed].
  { intros [H | []]. discriminate H. }
  destruct (existsb _ listed); simpl.
  - step as [error | embedding]; [intros [H | []]; discriminate H |].
    step as uuid. step as timestamp. step as [error | []].
    + intros [H | [H | []]]; [discriminate H |]. injection H as _ ->. reflexivity.
    + step. intros [H | [H | []]]; discriminate H.
  - step as [error | []]; [intros [H | [H | []]]; discriminate H |].
    step as [error | embedding]; [intros [H | [H | []]]; discriminate H |].
    step as uuid. step as timestamp. step as [error | []].
    + intros [H | [H | [H | []]]]; try discriminate H. injection H as _ ->. reflexivity.
    + step. intros [H | [H | [H | []]]]; discriminate H.
Qed.

End ThroughQdrant.

Lemma queries_through_live_postgres_witness :
  Effect.run Catalog.refusing
    (QueryPipelineLive.validateSql (Layers.postgres Catalog.recorded) "SELECT 1") tt
  = (Effect.Failure
       (QueryPipeline.QueryPipelineError
          "SQL validation failed: PostgresError: Query failed: Error: connect ECONNREFUSED"
          (Some (Postgres.PostgresError "Query failed: Error: connect ECONNREFUSED"
                                        (Some Catalog.connection_refused)))),
     [Effect.Ev (postgres_query "EXPLAIN SELECT 1" None) (inl Catalog.connection_refused)],
     tt).
Proof.
  apply (@queries_through_live_postgres Catalog.recorded unit Catalog.refusing
           (Layers.postgres Catalog.recorded) "SELECT 1" tt).
  reflexivity.
Defined.

Lemma trainFromDdlArray_stores_witness :
  Observe.contents "test_collection"
    (Effect.world_of
       (Effect.run World.mockQdrantClient
          (TrainingLive.trainFromDdlArray (QdrantLive.make Examples.mockQdrantConfig)
             (Layers.textToSql Catalog.recorded Examples.mockTextToSqlConfig
                               Examples.mockQdrantConfig)
             [Examples.users_ddl; Examples.orders_ddl; Examples.products_ddl])
          World.new_MockQdrantClient))
  = [Examples.users_ddl; Examples.orders_ddl; Examples.products_ddl].
Proof.
  apply (@trainFromDdlArray_stores_every_ddl_on_mock Examples.mockTextToSqlConfig
           Examples.mockQdrantConfig
           (Layers.textToSql Catalog.recorded Examples.mockTextToSqlConfig
                             Examples.mockQdrantConfig)
           [Examples.users_ddl; Examples.orders_ddl; Examples.products_ddl]
           World.new_MockQdrantClient).
  reflexivity.
Defined.

Lemma trainFromDdl_upsert_rejection_witness :
  Effect.exit_of
    (Effect.run Samples.rejecting_upserts
       (TrainingLive.trainFromDdl (QdrantLive.make Examples.mockQdrantConfig)
          (Layers.textToSql Catalog.recorded Examples.mockTextToSqlConfig
                            Examples.mockQdrantConfig)
          Examples.users_ddl) tt)
  = Effect.Failure
      (Train.TrainingError
         ("Failed to train schema: TextToSqlError: Failed to store schema: "
          +:+ "QdrantError: Failed to upsert vectors: Error: Bad Request")
         (Some (TextToSql.TextToSqlError
                  "Failed to store schema: QdrantError: Failed to upsert vectors: Error: Bad Request"
                  (Some (Qdrant.QdrantError "Failed to upsert vectors: Error: Bad Request"
                                            (Some Samples.bad_request)))))).
Proof.
  apply (@trainFromDdl_upsert_rejection_chain Examples.mockTextToSqlConfig
           Examples.mockQdrantConfig unit Samples.rejecting_upserts
           (Layers.textToSql Catalog.recorded Examples.mockTextToSqlConfig
                             Examples.mockQdrantConfig)
           Examples.users_ddl tt
           [ {| Qdrant.id := "00000000-0000-4000-8000-000000000000";
                Qdrant.vector := [];
                Qdrant.payload :=
                  {| Qdrant.content := Examples.users_ddl;
                     Qdrant.metadata :=
                       Some [ ("type", Js.Str "schema");
                              ("timestamp", Js.Str "1970-01-01T00:00:00.000Z") ] |} |} ]
           Samples.bad_request).
  - reflexivity.
  - right. right. left. reflexivity.
Defined.

End LayerFacts.
